(** * Election map: join, metric derivation and classification engine

    Shallow embedding of the precinct styling code of the election map
    component ([dynamic-map.tsx], with the earlier single-view variant of
    the same component).

    Modelling conventions:
    - vote, registration and population counts are integers ([Z]);
      derived percentages are exact rationals ([Q]); JavaScript doubles are
      read as exact rationals;
    - a JavaScript object is the list of its own properties in insertion
      order; [Object.entries] reorders it as the language does (array-index
      keys first, ascending, then the other keys in insertion order);
    - [console.log] is a writer effect: functions return the list of events
      they logged together with their value. *)

From Stdlib Require Import ZArith QArith Qround String Ascii List Bool Lia.
From Stdlib Require Import Permutation Sorting.Permutation.
Import ListNotations.
Open Scope string_scope.

(* ------------------------------------------------------------------ *)
(** ** Number formatting *)

Module JsNum.

(** Digits of a positive number in a base, most significant first.  The
    fuel is the bit length, which bounds the number of digits. *)
Fixpoint digits_fuel (fuel : nat) (base : Z) (n : Z) (acc : list Z) : list Z :=
  match fuel with
  | O => acc
  | S f =>
      if (n <? base)%Z then n :: acc
      else digits_fuel f base (n / base)%Z ((n mod base)%Z :: acc)
  end.

Definition digits (base : Z) (n : Z) : list Z :=
  digits_fuel (S (Z.to_nat (Z.log2 (Z.max n 1)))) base n [].

Definition digit_char (d : Z) : ascii :=
  if (d <? 10)%Z then ascii_of_nat (48 + Z.to_nat d)
  else ascii_of_nat (97 + Z.to_nat (d - 10)).

Fixpoint string_of_chars (l : list ascii) : string :=
  match l with
  | [] => EmptyString
  | c :: l' => String c (string_of_chars l')
  end.

(** [n.toString(base)] for an integer-valued number [n]. *)
Definition to_string_radix (base : Z) (n : Z) : string :=
  let s := string_of_chars (map digit_char (digits base (Z.abs n))) in
  if (n <? 0)%Z then "-" ++ s else s.

(** [n.toString()] for an integer-valued number of magnitude below [10^21]
    (precinct numbers are five-digit integers). *)
Definition to_string (n : Z) : string := to_string_radix 10 n.

(** [String.prototype.padStart(len, "0")]. *)
Definition pad_start (len : nat) (s : string) : string :=
  let missing := (len - String.length s)%nat in
  string_of_chars (repeat "0"%char missing) ++ s.

Definition is_digit (c : ascii) : bool :=
  let n := nat_of_ascii c in (48 <=? n)%nat && (n <=? 57)%nat.

(** Value of a string of decimal digits, [None] if empty or not digits. *)
Fixpoint decimal_value_acc (s : string) (acc : Z) : option Z :=
  match s with
  | EmptyString => Some acc
  | String c s' =>
      if is_digit c
      then decimal_value_acc s' (acc * 10 + Z.of_nat (nat_of_ascii c - 48))%Z
      else None
  end.

Definition decimal_value (s : string) : option Z :=
  match s with
  | EmptyString => None
  | _ => decimal_value_acc s 0
  end.

(** A property key is an array index when it is the canonical decimal
    string of an integer in [0, 2^32 - 2]. *)
Definition array_index (s : string) : option Z :=
  match decimal_value s with
  | Some n =>
      if String.eqb (to_string n) s && (n <? 4294967295)%Z then Some n
      else None
  | None => None
  end.

End JsNum.

(* ------------------------------------------------------------------ *)
(** ** JavaScript objects *)

Module JsObject.

Definition obj (A : Type) := list (string * A).

(** Property read [o[k]]. *)
Fixpoint get {A} (k : string) (o : obj A) : option A :=
  match o with
  | [] => None
  | (k', v) :: o' => if String.eqb k k' then Some v else get k o'
  end.

Section Entries.
Context {A : Type}.

Fixpoint insert_index (e : Z * (string * A)) (l : list (Z * (string * A)))
  : list (Z * (string * A)) :=
  match l with
  | [] => [e]
  | e' :: l' => if (fst e <=? fst e')%Z then e :: l else e' :: insert_index e l'
  end.

Fixpoint index_keys (o : obj A) : list (Z * (string * A)) :=
  match o with
  | [] => []
  | (k, v) :: o' =>
      match JsNum.array_index k with
      | Some n => insert_index (n, (k, v)) (index_keys o')
      | None => index_keys o'
      end
  end.

Definition string_keys (o : obj A) : obj A :=
  filter (fun kv => match JsNum.array_index (fst kv) with
                    | Some _ => false | None => true end) o.

(** [Object.entries(o)]: array-index keys in ascending numeric order, then
    the remaining keys in insertion order. *)
Definition entries (o : obj A) : obj A :=
  (map snd (index_keys o) ++ string_keys o)%list.

End Entries.
End JsObject.

(* ------------------------------------------------------------------ *)
(** ** Console output and exceptions *)

Inductive event :=
| NoResultsFound (electDist : Z)
| StylingPrecinct (electDist : Z) (hasResults : bool)
    (winningCandidate : option string) (locality : option string).

Inductive outcome (A : Type) :=
| Returned (a : A)
| Threw (error : string).
Arguments Returned {A} a.
Arguments Threw {A} error.

(** A computation returns the events it logged before it returned or threw. *)
Definition M (A : Type) := (list event * outcome A)%type.

Definition ret {A} (a : A) : M A := ([], Returned a).
Definition throw {A} (e : string) : M A := ([], Threw e).
Definition bind {A B} (m : M A) (k : A -> M B) : M B :=
  match m with
  | (l1, Returned a) => let (l2, r) := k a in ((l1 ++ l2)%list, r)
  | (l1, Threw e) => (l1, Threw e)
  end.
Definition log (e : event) : M unit := ([e], Returned tt).
Definition result {A} (m : M A) : outcome A := snd m.

Notation "x <- m ;; k" := (bind m (fun x => k))
  (at level 61, m at next level, right associativity).
Notation "m ;;; k" := (bind m (fun _ => k))
  (at level 61, right associativity).

(* ------------------------------------------------------------------ *)
(** ** Data model *)

(** A record of [results.precincts]. *)
Record PrecinctResult := {
  item_id : string;
  scraped_item_id : string;
  geo_id : string;
  locality_name : option string;
  votes : Z;
  results : JsObject.obj Z
}.

(** [VoterCounts] as declared for [./data/voter-counts]. *)
Record VoterCounts := {
  district : Z;
  county : string;
  democrats : Z;
  republicans : Z;
  conservatives : Z;
  working_families : Z;
  other : Z;
  blank : Z;
  total : Z
}.

(** A GeoJSON feature of the election-district layer: the [ElectDist]
    property and the rest of its properties, which the styling ignores. *)
Record Feature := {
  ElectDist : Z;
  other_properties : list (string * string)
}.

(** A JavaScript value read from a [{ [key: string]: string }] table: one of
    its own strings, or a member inherited from [Object.prototype] (a
    function such as [constructor], or the prototype itself for
    [__proto__]), which is truthy and not a string. *)
Inductive jsval :=
| JStr (s : string)
| JProto (name : string).

(** The style object handed to Leaflet. *)
Record Style := {
  fillColor : jsval;
  weight : Q;
  opacity : Q;
  color : string;
  dashArray : option string;
  fillOpacity : Q
}.

Inductive ViewMode :=
| ElectionResults | VoterRegistration | Turnout | AgeDemographics | ZohranSupport.

(* ------------------------------------------------------------------ *)
(** ** Winner selection *)

(** The comparator [([, a], [, b]) => b - a] under a stable sort: [insert]
    places an entry before the first entry whose count is not larger, so an
    earlier entry stays in front of later entries with the same count. *)
Fixpoint insert_desc (x : string * Z) (l : list (string * Z)) : list (string * Z) :=
  match l with
  | [] => [x]
  | y :: l' => if (snd y <=? snd x)%Z then x :: l else y :: insert_desc x l'
  end.

Fixpoint sort_desc (l : list (string * Z)) : list (string * Z) :=
  match l with
  | [] => []
  | x :: l' => insert_desc x (sort_desc l')
  end.

Definition candidate_entries (pr : PrecinctResult) : list (string * Z) :=
  filter (fun kv => negb (String.eqb (fst kv) "total_writeins"))
    (JsObject.entries (results pr)).

(** [getWinningCandidate]: [candidates[0]?.[0] || null], where the empty
    string is falsy. *)
Definition getWinningCandidate (precinctResults : option PrecinctResult)
  : option string :=
  match precinctResults with
  | None => None
  | Some pr =>
      match sort_desc (candidate_entries pr) with
      | [] => None
      | (k, _) :: _ => if String.eqb k "" then None else Some k
      end
  end.

(* ------------------------------------------------------------------ *)
(** ** Color tables and shading *)

Definition object_prototype_members : list string :=
  ["constructor"; "hasOwnProperty"; "isPrototypeOf"; "propertyIsEnumerable";
   "toLocaleString"; "toString"; "valueOf"; "__defineGetter__";
   "__defineSetter__"; "__lookupGetter__"; "__lookupSetter__"; "__proto__"].

(** [table[key]] on an object literal: an own property, else an inherited
    member of [Object.prototype], else [undefined]. *)
Definition lookup_literal (table : JsObject.obj string) (key : string)
  : option jsval :=
  match JsObject.get key table with
  | Some s => Some (JStr s)
  | None =>
      if existsb (String.eqb key) object_prototype_members
      then Some (JProto key) else None
  end.

(** [table[key] || fallback] *)
Definition lookup_or (table : JsObject.obj string) (key : string)
  (fallback : string) : jsval :=
  match lookup_literal table key with
  | Some (JStr "") | None => JStr fallback
  | Some v => v
  end.

Definition candidateBaseColors : JsObject.obj string :=
  [("cuomo-a", "#1f77b4"); ("lander-b", "#ff7f0e"); ("mamdani-z", "#2ca02c");
   ("ramos-j", "#d62728"); ("stringer-s", "#9467bd"); ("blake-m", "#8c564b");
   ("myrie-z", "#e377c2"); ("tilson-w", "#7f7f7f"); ("adams-a", "#bcbd22")].

Definition hex_value (c : ascii) : option Z :=
  let n := Z.of_nat (nat_of_ascii c) in
  if (48 <=? n)%Z && (n <=? 57)%Z then Some (n - 48)%Z
  else if (97 <=? n)%Z && (n <=? 102)%Z then Some (n - 87)%Z
  else if (65 <=? n)%Z && (n <=? 70)%Z then Some (n - 55)%Z
  else None.

Fixpoint hex_prefix (s : string) (acc : option Z) : option Z :=
  match s with
  | EmptyString => acc
  | String c s' =>
      match hex_value c with
      | Some d =>
          hex_prefix s' (Some (match acc with Some a => a * 16 + d | None => d end)%Z)
      | None => acc
      end
  end.

Definition is_space (c : ascii) : bool :=
  let n := nat_of_ascii c in (n =? 32)%nat || ((9 <=? n)%nat && (n <=? 13)%nat).

Fixpoint trim_start (s : string) : string :=
  match s with
  | String c s' => if is_space c then trim_start s' else s
  | EmptyString => EmptyString
  end.

(** [parseInt(s, 16)]; [None] is [NaN]. *)
Definition parseInt16 (s : string) : option Z :=
  let s1 := trim_start s in
  let '(neg, s2) :=
    match s1 with
    | String "-" s' => (true, s')
    | String "+" s' => (false, s')
    | _ => (false, s1)
    end in
  let s3 :=
    match s2 with
    | String "0" (String "x" s') | String "0" (String "X" s') => s'
    | _ => s2
    end in
  match hex_prefix s3 None with
  | Some v => Some (if neg then - v else v)%Z
  | None => None
  end.

(** [s.replace("#", "")]: the first occurrence only. *)
Fixpoint remove_first_hash (s : string) : string :=
  match s with
  | EmptyString => EmptyString
  | String c s' => if Ascii.eqb c "#" then s' else String c (remove_first_hash s')
  end.

(** [String.prototype.substr(start, length)]. *)
Definition substr (start len : nat) (s : string) : string :=
  String.substring start len s.

(** [n.toString(16).padStart(2, "0")]; [NaN] prints as ["NaN"]. *)
Definition channel_hex (n : option Z) : string :=
  match n with
  | Some v => JsNum.pad_start 2 (JsNum.to_string_radix 16 v)
  | None => "NaN"
  end.

Definition map_channel (f : Z -> Z) (n : option Z) : option Z :=
  match n with Some v => Some (f v) | None => None end.

(** [darkenColor(color, amount)]; a non-string [color] has no [replace]
    method, and the call throws. *)
Definition darkenColor (c : jsval) (amount : Q) : M string :=
  match c with
  | JProto _ => throw "TypeError: color.replace is not a function"
  | JStr color =>
      let hex := remove_first_hash color in
      let r := parseInt16 (substr 0 2 hex) in
      let g := parseInt16 (substr 2 2 hex) in
      let b := parseInt16 (substr 4 2 hex) in
      let dark v := Z.max 0 (Qfloor (inject_Z v * (1 - amount))) in
      let newR := map_channel dark r in
      let newG := map_channel dark g in
      let newB := map_channel dark b in
      ret ("#" ++ channel_hex newR ++ channel_hex newG ++ channel_hex newB)
  end.

(** [lightenColor(color, amount)] *)
Definition lightenColor (c : jsval) (amount : Q) : M string :=
  match c with
  | JProto _ => throw "TypeError: color.replace is not a function"
  | JStr color =>
      let hex := remove_first_hash color in
      let r := parseInt16 (substr 0 2 hex) in
      let g := parseInt16 (substr 2 2 hex) in
      let b := parseInt16 (substr 4 2 hex) in
      let light v := Z.min 255 (Qfloor (inject_Z v + inject_Z (255 - v) * amount)) in
      let newR := map_channel light r in
      let newG := map_channel light g in
      let newB := map_channel light b in
      ret ("#" ++ channel_hex newR ++ channel_hex newG ++ channel_hex newB)
  end.

(** Comparisons of a JavaScript number, [None] being [NaN]. *)
Definition num_ge (x : option Q) (t : Q) : bool :=
  match x with Some q => Qle_bool t q | None => false end.

Definition q_ge (x t : Q) : bool := Qle_bool t x.
Definition q_lt (x t : Q) : bool := negb (Qle_bool t x).
Definition q_gt (x t : Q) : bool := negb (Qle_bool x t).

Definition qdiv_z (a b : Z) : Q := inject_Z a / inject_Z b.

(* ------------------------------------------------------------------ *)
(** ** Join and styling over a loaded snapshot *)

Section Snapshot.

(** [results.precincts], in stored order. *)
Variable precincts : list PrecinctResult.
(** [getVoterCounts] from [./data/voter-counts]: the registration record of
    a district number, if any. *)
Variable getVoterCounts : Z -> option VoterCounts.

(** [getPrecinctResults(electDist)] *)
Definition getPrecinctResults (electDist : Z) : M (option PrecinctResult) :=
  let result := find (fun p => String.eqb (item_id p) (JsNum.to_string electDist))
                  precincts in
  match result with
  | None => log (NoResultsFound electDist) ;;; ret result
  | Some _ => ret result
  end.

(** [stylePrecinctByResults(feature)] *)
Definition stylePrecinctByResults (feature : Feature) : M Style :=
  let electDist := ElectDist feature in
  precinctResults <- getPrecinctResults electDist ;;
  let winningCandidate := getWinningCandidate precinctResults in
  match precinctResults, winningCandidate with
  | Some pr, Some w =>
      let totalVotes := votes pr in
      let winningVotes := JsObject.get w (results pr) in
      let winPercentage :=
        if (totalVotes >? 0)%Z
        then match winningVotes with
             | Some v => Some (qdiv_z v totalVotes * 100)
             | None => None
             end
        else Some 0 in
      let baseColor := lookup_or candidateBaseColors w "#cccccc" in
      fillColor <-
        (if num_ge winPercentage 80 then c <- darkenColor baseColor (3#10) ;; ret (JStr c)
         else if num_ge winPercentage 60 then c <- darkenColor baseColor (2#10) ;; ret (JStr c)
         else if num_ge winPercentage 50 then ret baseColor
         else if num_ge winPercentage 40 then c <- lightenColor baseColor (2#10) ;; ret (JStr c)
         else c <- lightenColor baseColor (4#10) ;; ret (JStr c)) ;;
      ret {| fillColor := fillColor; weight := 1; opacity := 1; color := "white";
             dashArray := Some "3"; fillOpacity := 7#10 |}
  | _, _ =>
      ret {| fillColor := JStr "#cccccc"; weight := 1; opacity := 1; color := "white";
             dashArray := Some "3"; fillOpacity := 7#10 |}
  end.

(** The threshold ladder of [stylePrecinctByTurnout]. *)
Definition turnout_color (demTurnoutPercentage : Q) : string :=
  if q_ge demTurnoutPercentage 60 then "#1a365d"
  else if q_ge demTurnoutPercentage 50 then "#2c5282"
  else if q_ge demTurnoutPercentage 40 then "#3182ce"
  else if q_ge demTurnoutPercentage 30 then "#63b3ed"
  else if q_ge demTurnoutPercentage 20 then "#90cdf4"
  else "#bee3f8".

(** [stylePrecinctByTurnout(feature)] *)
Definition stylePrecinctByTurnout (feature : Feature) : M Style :=
  let electDist := ElectDist feature in
  precinctResults <- getPrecinctResults electDist ;;
  let voterData := getVoterCounts electDist in
  match precinctResults, voterData with
  | Some pr, Some vd =>
      if (democrats vd =? 0)%Z then
        ret {| fillColor := JStr "#cccccc"; weight := 1; opacity := 1; color := "white";
               dashArray := Some "3"; fillOpacity := 7#10 |}
      else
        let demTurnoutPercentage := qdiv_z (votes pr) (democrats vd) * 100 in
        ret {| fillColor := JStr (turnout_color demTurnoutPercentage); weight := 1;
               opacity := 1; color := "white"; dashArray := Some "3";
               fillOpacity := 7#10 |}
  | _, _ =>
      ret {| fillColor := JStr "#cccccc"; weight := 1; opacity := 1; color := "white";
             dashArray := Some "3"; fillOpacity := 7#10 |}
  end.

(** [voterData.total > 0 ? (voterData.democrats / voterData.total) * 100 : 0] *)
Definition demPercentage (vd : VoterCounts) : Q :=
  if (total vd >? 0)%Z then qdiv_z (democrats vd) (total vd) * 100 else 0.

(** The threshold ladder of [stylePrecinctByVoters]. *)
Definition voters_color (demPercentage : Q) : string :=
  if q_lt demPercentage 30 then "#d62728"
  else if q_lt demPercentage 40 then "#ff7f0e"
  else if q_lt demPercentage 50 then "#ffbb78"
  else if q_lt demPercentage 60 then "#aec7e8"
  else if q_lt demPercentage 70 then "#1f77b4"
  else "#0d47a1".

(** [stylePrecinctByVoters(feature)] *)
Definition stylePrecinctByVoters (feature : Feature) : M Style :=
  let electDist := ElectDist feature in
  let voterData := getVoterCounts electDist in
  match voterData with
  | None =>
      ret {| fillColor := JStr "#cccccc"; weight := 1; opacity := 1; color := "white";
             dashArray := Some "3"; fillOpacity := 7#10 |}
  | Some vd =>
      ret {| fillColor := JStr (voters_color (demPercentage vd)); weight := 1;
             opacity := 1; color := "white"; dashArray := Some "3";
             fillOpacity := 7#10 |}
  end.

(** [precinctResults.results["mamdani-z"] || 0] *)
Definition zohranVotes (pr : PrecinctResult) : Z :=
  match JsObject.get "mamdani-z" (results pr) with
  | Some v => v
  | None => 0%Z
  end.

(** The threshold ladder of [stylePrecinctByZohranSupport]. *)
Definition zohran_color (zohranSupportPercentage : Q) : string :=
  if q_ge zohranSupportPercentage 20 then "#276419"
  else if q_ge zohranSupportPercentage 15 then "#4d9221"
  else if q_ge zohranSupportPercentage 10 then "#7fbc41"
  else if q_ge zohranSupportPercentage (15#2) then "#b8e186"
  else if q_ge zohranSupportPercentage 5 then "#d9f0a3"
  else if q_ge zohranSupportPercentage (5#2) then "#f1b6da"
  else if q_gt zohranSupportPercentage 0 then "#de77ae"
  else "#c51b7d".

Definition zohranSupportPercentage (pr : PrecinctResult) (vd : VoterCounts) : Q :=
  qdiv_z (zohranVotes pr) (total vd) * 100.

(** [stylePrecinctByZohranSupport(feature)] *)
Definition stylePrecinctByZohranSupport (feature : Feature) : M Style :=
  let electDist := ElectDist feature in
  precinctResults <- getPrecinctResults electDist ;;
  let voterData := getVoterCounts electDist in
  match precinctResults, voterData with
  | Some pr, Some vd =>
      if (total vd =? 0)%Z then
        ret {| fillColor := JStr "#cccccc"; weight := 1; opacity := 1; color := "white";
               dashArray := Some "3"; fillOpacity := 7#10 |}
      else
        ret {| fillColor := JStr (zohran_color (zohranSupportPercentage pr vd));
               weight := 1; opacity := 1; color := "white"; dashArray := Some "3";
               fillOpacity := 7#10 |}
  | _, _ =>
      ret {| fillColor := JStr "#cccccc"; weight := 1; opacity := 1; color := "white";
             dashArray := Some "3"; fillOpacity := 7#10 |}
  end.

(** [styleFunction] of the [Map] component for the active view mode. *)
Definition styleFunction (viewMode : ViewMode) : Feature -> M Style :=
  match viewMode with
  | ElectionResults => stylePrecinctByResults
  | Turnout => stylePrecinctByTurnout
  | ZohranSupport => stylePrecinctByZohranSupport
  | _ => stylePrecinctByVoters
  end.

(** The candidate table of the earlier single-view component. *)
Definition candidateColors : JsObject.obj string :=
  [("cuomo-a", "#1f77b4"); ("lander-b", "#ff7f0e"); ("mamdani-z", "#2ca02c");
   ("ramos-j", "#d62728"); ("stringer-s", "#9467bd"); ("blake-m", "#8c564b");
   ("myrie-z", "#e377c2"); ("tilson-w", "#7f7f7f"); ("adams-a", "#bcbd22")].

(** [stylePrecinct(feature)] of the earlier single-view component; [rnd] is
    the value drawn by [Math.random()], in [0, 1). *)
Definition stylePrecinct (rnd : Q) (feature : Feature) : M Style :=
  let electDist := ElectDist feature in
  precinctResults <- getPrecinctResults electDist ;;
  let winningCandidate := getWinningCandidate precinctResults in
  (if q_lt rnd (1#100)
   then log (StylingPrecinct electDist
               (match precinctResults with Some _ => true | None => false end)
               winningCandidate
               (match precinctResults with Some pr => locality_name pr | None => None end))
   else ret tt) ;;;
  ret {| fillColor :=
           match winningCandidate with
           | Some w => lookup_or candidateColors w "#cccccc"
           | None => JStr "#cccccc"
           end;
         weight := 1; opacity := 1; color := "white"; dashArray := Some "3";
         fillOpacity := 7#10 |}.

End Snapshot.

(* ------------------------------------------------------------------ *)
(** ** Census tracts: Gen-Z share *)

(** One age bracket of [ageGroups]: [Some c] when the entry is an object
    with a non-null numeric [total] equal to [c], [None] otherwise. *)
Definition AgeBracket := option Z.

Definition genZ_step (genZCount : Q) (entry : string * AgeBracket) : Q :=
  let '(ageRange, data) := entry in
  match data with
  | Some count =>
      if (count >? 0)%Z then
        if String.eqb ageRange "10 to 14 years" then genZCount + inject_Z count * (8#10)
        else if String.eqb ageRange "15 to 19 years" then genZCount + inject_Z count
        else if String.eqb ageRange "20 to 24 years" then genZCount + inject_Z count
        else if String.eqb ageRange "25 to 29 years" then genZCount + inject_Z count * (4#10)
        else genZCount
      else genZCount
  | None => genZCount
  end.

(** [calculateGenZPercentage(ageGroups, totalPopulation)]; [None] for an
    absent argument or the [null] result. *)
Definition calculateGenZPercentage (ageGroups : option (JsObject.obj AgeBracket))
  (totalPopulation : option Z) : option Q :=
  match ageGroups, totalPopulation with
  | Some ag, Some tp =>
      if (tp =? 0)%Z then None
      else
        let genZCount := fold_left genZ_step (JsObject.entries ag) 0 in
        if Qeq_bool genZCount 0 then None
        else Some (genZCount / inject_Z tp * 100)
  | _, _ => None
  end.

(* ------------------------------------------------------------------ *)
(** ** Precinct popup: registration shares *)

(** A share as the popup prints it: [x.toFixed(1)] of a number, or a
    literal string. *)
Inductive share_text :=
| Fixed1 (q : Q)
| Literal (s : string).

(** [voterData.total > 0 ? ((part / voterData.total) * 100).toFixed(1) : "0"] *)
Definition popup_share (part : Z) (vd : VoterCounts) : share_text :=
  if (total vd >? 0)%Z then Fixed1 (qdiv_z part (total vd) * 100) else Literal "0".

Definition popup_demPercentage (vd : VoterCounts) : share_text :=
  popup_share (democrats vd) vd.

Definition popup_repPercentage (vd : VoterCounts) : share_text :=
  popup_share (republicans vd) vd.

(* ------------------------------------------------------------------ *)
(** ** Readings of the specification, compared with the code above *)

Module SpecReading.

(** A threshold table read as the specification describes it: bins closed
    at their lower bound and open at the next one, the top bin unbounded
    above, the bottom bin unbounded below.  [bins] lists the lower bounds
    in ascending order with their colors. *)
Definition bin_lookup (bottom : string) (bins : list (Q * string)) (x : Q) : string :=
  fold_left (fun acc b => if Qle_bool (fst b) x then snd b else acc) bins bottom.

(** The number of bins of a table: the bottom one and one per lower bound. *)
Definition bin_count (bins : list (Q * string)) : nat := S (length bins).

Definition turnout_bins : list (Q * string) :=
  [(20, "#90cdf4"); (30, "#63b3ed"); (40, "#3182ce"); (50, "#2c5282"); (60, "#1a365d")].

Definition voters_bins : list (Q * string) :=
  [(30, "#ff7f0e"); (40, "#ffbb78"); (50, "#aec7e8"); (60, "#1f77b4"); (70, "#0d47a1")].

(** Zohran-support bins above the two lowest ones. *)
Definition zohran_upper_bins : list (Q * string) :=
  [(5#2, "#f1b6da"); (5, "#d9f0a3"); (15#2, "#b8e186"); (10, "#7fbc41");
   (15, "#4d9221"); (20, "#276419")].

(** Results view: five margin tiers in ascending order. *)
Definition tier_shade (base : jsval) (margin : Q) : M jsval :=
  if q_lt margin 40 then c <- lightenColor base (4#10) ;; ret (JStr c)
  else if q_lt margin 50 then c <- lightenColor base (2#10) ;; ret (JStr c)
  else if q_lt margin 60 then ret base
  else if q_lt margin 80 then c <- darkenColor base (2#10) ;; ret (JStr c)
  else c <- darkenColor base (3#10) ;; ret (JStr c).

(** Win margin of the winner's count [v]: [0] when no votes were cast. *)
Definition win_margin (pr : PrecinctResult) (v : Z) : Q :=
  if (votes pr >? 0)%Z then qdiv_z v (votes pr) * 100 else 0.

Definition precinct_style (fill : jsval) : Style :=
  {| fillColor := fill; weight := 1; opacity := 1; color := "white";
     dashArray := Some "3"; fillOpacity := 7#10 |}.

(** The Gen-Z weighted sum with the bracket counts read by name. *)
Definition bracket_count (ag : JsObject.obj AgeBracket) (name : string) : Z :=
  match JsObject.get name ag with
  | Some (Some c) => c
  | _ => 0%Z
  end.

Definition genZ_weighted (ag : JsObject.obj AgeBracket) : Q :=
  (8#10) * inject_Z (bracket_count ag "10 to 14 years")
  + inject_Z (bracket_count ag "15 to 19 years")
  + inject_Z (bracket_count ag "20 to 24 years")
  + (4#10) * inject_Z (bracket_count ag "25 to 29 years").

(** The candidate entries in insertion order, write-in key removed. *)
Definition insertion_candidates (pr : PrecinctResult) : list (string * Z) :=
  filter (fun kv => negb (String.eqb (fst kv) "total_writeins")) (results pr).

(** [k] is the first key of [l] with the largest count. *)
Definition first_max (l : list (string * Z)) (k : string) : Prop :=
  exists pre v post,
    l = (pre ++ (k, v) :: post)%list /\
    Forall (fun e => (snd e < v)%Z) pre /\
    Forall (fun e => (snd e <= v)%Z) post.

End SpecReading.

(* ------------------------------------------------------------------ *)
(** ** Gen-Z sums *)

(** The contribution of each bracket, summed. *)
Definition genZ_sum (l : list (string * AgeBracket)) : Q :=
  fold_right (fun e s => genZ_step 0 e + s) 0 l.

Definition counts_nonneg (ag : JsObject.obj AgeBracket) : Prop :=
  Forall (fun kv => match snd kv with Some c => (0 <= c)%Z | None => True end) ag.

(* ------------------------------------------------------------------ *)
(** ** Precinct popup *)

(** A JavaScript number computed as [(a / b) * 100] from integers: finite,
    or the infinity or [NaN] of a division by zero. *)
Inductive jsnum :=
| JFinite (q : Q)
| JInfinity
| JNegInfinity
| JNaN.

Definition js_percent (a b : Z) : jsnum :=
  if (b =? 0)%Z then
    if (a >? 0)%Z then JInfinity else if (a <? 0)%Z then JNegInfinity else JNaN
  else JFinite (qdiv_z a b * 100).

Definition candidateNames : JsObject.obj string :=
  [("cuomo-a", "Cuomo"); ("lander-b", "Lander"); ("mamdani-z", "Mamdani");
   ("ramos-j", "Ramos"); ("stringer-s", "Stringer"); ("blake-m", "Blake");
   ("myrie-z", "Myrie"); ("tilson-w", "Tilson"); ("adams-a", "Adams")].

(** One item of the popup's results list: [candidateNames[candidate] ||
    candidate], the vote count and the vote percentage. *)
Record RankingRow := {
  row_label : jsval;
  row_votes : Z;
  row_percentage : share_text
}.

Definition ranking_row (totalVotes : Z) (entry : string * Z) : RankingRow :=
  let '(candidate, v) := entry in
  {| row_label := lookup_or candidateNames candidate candidate;
     row_votes := v;
     row_percentage :=
       if (totalVotes >? 0)%Z then Fixed1 (qdiv_z v totalVotes * 100)
       else Literal "0.0" |}.

(** The election-results section of a precinct popup.  An info line is
    [None] when the code leaves it empty; otherwise it holds the percentage
    it prints with [toFixed(1)] (the Zohran line also prints the vote count). *)
Record ResultsSection := {
  rs_totalVotes : Z;
  rs_turnoutInfo : option jsnum;
  rs_demTurnoutInfo : option jsnum;
  rs_zohranSupportInfo : option (jsnum * Z);
  rs_winner : jsval;
  rs_ranking : list RankingRow
}.

(** The voter-registration section of a precinct popup; it also prints the
    counts of [reg_voterData]. *)
Record RegistrationSection := {
  reg_voterData : VoterCounts;
  reg_turnoutInfo : option jsnum;
  reg_demTurnoutInfo : option jsnum;
  reg_demPercentage : share_text;
  reg_repPercentage : share_text
}.

(** The content of a precinct popup: the heading [Precinct electDist] and
    its two optional sections. *)
Record PrecinctPopup := {
  popup_electDist : Z;
  popup_results : option ResultsSection;
  popup_registration : option RegistrationSection
}.

Section Popup.

Variable precincts : list PrecinctResult.
Variable getVoterCounts : Z -> option VoterCounts.

(** [onEachPrecinct(feature, layer, viewMode)]: the popup bound to the
    layer. *)
Definition onEachPrecinct (feature : Feature) (viewMode : ViewMode)
  : M PrecinctPopup :=
  let electDist := ElectDist feature in
  precinctResults <- getPrecinctResults precincts electDist ;;
  let voterData := getVoterCounts electDist in
  let resultsSection :=
    match precinctResults with
    | None => None
    | Some pr =>
        let winningCandidate := getWinningCandidate precinctResults in
        let totalVotes := votes pr in
        let turnoutInfo :=
          match voterData with
          | Some vd =>
              if (total vd >? 0)%Z then Some (js_percent totalVotes (total vd))
              else None
          | None => None
          end in
        let demTurnoutInfo :=
          match voterData with
          | Some vd =>
              if (democrats vd >? 0)%Z then Some (js_percent totalVotes (democrats vd))
              else None
          | None => None
          end in
        let zohranSupportInfo :=
          match voterData with
          | Some vd =>
              if (total vd >? 0)%Z
              then Some (js_percent (zohranVotes pr) (total vd), zohranVotes pr)
              else None
          | None => None
          end in
        Some {| rs_totalVotes := totalVotes;
                rs_turnoutInfo := turnoutInfo;
                rs_demTurnoutInfo := demTurnoutInfo;
                rs_zohranSupportInfo :=
                  match viewMode with
                  | ZohranSupport => zohranSupportInfo
                  | _ => None
                  end;
                rs_winner :=
                  match winningCandidate with
                  | Some w => lookup_or candidateNames w w
                  | None => JStr "No data"
                  end;
                rs_ranking :=
                  map (ranking_row totalVotes) (sort_desc (candidate_entries pr)) |}
    end in
  let registrationSection :=
    match voterData with
    | None => None
    | Some vd =>
        let turnoutInfo :=
          match precinctResults with
          | Some pr =>
              if (votes pr >? 0)%Z then Some (js_percent (votes pr) (total vd))
              else None
          | None => None
          end in
        let demTurnoutInfo :=
          match precinctResults with
          | Some pr =>
              if (votes pr >? 0)%Z && (democrats vd >? 0)%Z
              then Some (js_percent (votes pr) (democrats vd))
              else None
          | None => None
          end in
        Some {| reg_voterData := vd;
                reg_turnoutInfo := turnoutInfo;
                reg_demTurnoutInfo := demTurnoutInfo;
                reg_demPercentage := popup_demPercentage vd;
                reg_repPercentage := popup_repPercentage vd |}
    end in
  ret {| popup_electDist := electDist;
         popup_results := resultsSection;
         popup_registration := registrationSection |}.

(** The matching statistics the [Map] component logs:
    [matchedCount], and [matchPercentage] as a share text to which ["%"] is
    appended (the literal is ["0%"] itself). *)
Definition matchedCount (features : list Feature) : nat :=
  length (filter (fun f => existsb (fun r => String.eqb (item_id r)
                                               (JsNum.to_string (ElectDist f)))
                             precincts) features).

Definition matchPercentage (features : list Feature) : share_text :=
  let totalElectionDistricts := length features in
  if (0 <? totalElectionDistricts)%nat
  then Fixed1 (inject_Z (Z.of_nat (matchedCount features))
               / inject_Z (Z.of_nat totalElectionDistricts) * 100)
  else Literal "0%".

End Popup.

(* ------------------------------------------------------------------ *)
(** ** Census tracts: style and popup *)

(** The properties of a census-tract feature that the code reads; an
    absent property is [None]. *)
Record TractProperties := {
  NAME : option string;
  CTLabel : option string;
  totalPopulation : option Z;
  totalPopulationMOE : option Z;
  ageGroups : option (JsObject.obj AgeBracket);
  selectedAgeCategories : option (JsObject.obj AgeBracket)
}.

(** The color ladder of [styleCensusTract]. *)
Definition genZ_color (genZPercentage : Q) : string :=
  if q_ge genZPercentage 30 then "#276419"
  else if q_ge genZPercentage 25 then "#4d9221"
  else if q_ge genZPercentage 20 then "#7fbc41"
  else if q_ge genZPercentage 15 then "#b8e186"
  else if q_ge genZPercentage 10 then "#f1b6da"
  else if q_ge genZPercentage 5 then "#de77ae"
  else "#c51b7d".

(** [styleCensusTract(feature, isPrimaryView)] for a feature with
    properties [props]; an absent [dashArray] is [None]. *)
Definition styleCensusTract (props : TractProperties) (isPrimaryView : bool) : Style :=
  let totalPop := totalPopulation props in
  if match totalPop with Some tp => (tp =? 0)%Z | None => true end then
    {| fillColor := JStr "#cccccc"; weight := if isPrimaryView then 1 else 1#2;
       opacity := 1; color := if isPrimaryView then "#666666" else "#888888";
       dashArray := None; fillOpacity := if isPrimaryView then 7#10 else 3#10 |}
  else
    match calculateGenZPercentage (ageGroups props) totalPop with
    | None =>
        {| fillColor := JStr "#cccccc"; weight := if isPrimaryView then 1 else 1#2;
           opacity := 1; color := if isPrimaryView then "#666666" else "#888888";
           dashArray := None; fillOpacity := if isPrimaryView then 7#10 else 3#10 |}
    | Some genZPercentage =>
        {| fillColor := JStr (genZ_color genZPercentage);
           weight := if isPrimaryView then 1 else 1#2;
           opacity := 1; color := if isPrimaryView then "#333333" else "#888888";
           dashArray := if isPrimaryView then None else Some "2";
           fillOpacity := if isPrimaryView then 7#10 else 3#10 |}
    end.

(** [censusTractStyleWrapper] of the [Map] component. *)
Definition censusTractStyleWrapper (viewMode : ViewMode) (props : TractProperties)
  : Style :=
  styleCensusTract props (match viewMode with AgeDemographics => true | _ => false end).

(** [x || fallback] for an optional string. *)
Definition or_string (x : option string) (fallback : string) : string :=
  match x with
  | Some s => if String.eqb s "" then fallback else s
  | None => fallback
  end.

(** One item of an age list of the tract popup: the key, [data.total] and
    its percentage of the population. *)
Record AgeRow := {
  age_label : string;
  age_total : Z;
  age_percentage : share_text
}.

(** The item list of [ageGroups] or [selectedAgeCategories]: [None] when
    the object is absent or has no keys, else one item per key (in
    [Object.keys] order) whose [data.total] is a number. *)
Definition age_rows (totalPop : Z) (groups : option (JsObject.obj AgeBracket))
  : option (list AgeRow) :=
  match groups with
  | Some g =>
      if (0 <? length (JsObject.entries g))%nat then
        Some (flat_map (fun e : string * AgeBracket =>
                match snd e with
                | Some t =>
                    [{| age_label := fst e; age_total := t;
                        age_percentage :=
                          if (totalPop >? 0)%Z then Fixed1 (qdiv_z t totalPop * 100)
                          else Literal "0.0" |}]
                | None => []
                end) (JsObject.entries g))
      else None
  | None => None
  end.

(** The population section of a tract popup. *)
Record PopulationSection := {
  pop_total : Z;
  pop_moe : option Z;
  pop_genZ : option Q;
  pop_ageRows : option (list AgeRow);
  pop_selectedRows : option (list AgeRow)
}.

Record TractPopup := {
  tract_name : string;
  tract_population : option PopulationSection
}.

(** [onEachCensusTract(feature, layer)]: the popup bound to the layer. *)
Definition onEachCensusTract (props : TractProperties) : TractPopup :=
  let totalPop := totalPopulation props in
  let name := or_string (NAME props) (or_string (CTLabel props) "Unknown") in
  let genZPercentage :=
    calculateGenZPercentage (ageGroups props)
      (Some (match totalPop with Some t => t | None => 0%Z end)) in
  {| tract_name := name;
     tract_population :=
       match totalPop with
       | Some tp =>
           Some {| pop_total := tp;
                   pop_moe :=
                     match totalPopulationMOE props with
                     | Some m => if (m =? 0)%Z then None else Some m
                     | None => None
                     end;
                   pop_genZ := genZPercentage;
                   pop_ageRows := age_rows tp (ageGroups props);
                   pop_selectedRows := age_rows tp (selectedAgeCategories props) |}
       | None => None
       end |}.

(** The GeoJSON layer the [Map] component renders in a view mode: the
    census tracts in the age-demographics view, the election districts
    otherwise, each with its style and popup functions. *)
Inductive MapLayer :=
| CensusTracts (style : TractProperties -> Style)
    (onEachFeature : TractProperties -> TractPopup)
| ElectionDistricts (style : Feature -> M Style)
    (onEachFeature : Feature -> M PrecinctPopup).

Definition rendered_layer (precincts : list PrecinctResult)
  (getVoterCounts : Z -> option VoterCounts) (viewMode : ViewMode) : MapLayer :=
  match viewMode with
  | AgeDemographics =>
      CensusTracts (censusTractStyleWrapper viewMode) onEachCensusTract
  | _ =>
      ElectionDistricts (styleFunction precincts getVoterCounts viewMode)
        (fun feature => onEachPrecinct precincts getVoterCounts feature viewMode)
  end.

(* ------------------------------------------------------------------ *)
(** ** County aggregation ([integration-example.ts]) *)

(** [PrecinctWithVoterData]: a precinct feature with the [voterCounts]
    property added. *)
Record PrecinctWithVoterData := {
  pwv_feature : Feature;
  voterCounts : option VoterCounts
}.

Record CountyTotals := {
  t_democrats : Z;
  t_republicans : Z;
  t_conservatives : Z;
  t_working_families : Z;
  t_other : Z;
  t_blank : Z;
  t_total : Z
}.

Section Integration.

Variable getVoterCounts : Z -> option VoterCounts.
(** [precincts.features] of [./precincts]. *)
Variable features : list Feature.

(** [addVoterDataToPrecincts()] *)
Definition addVoterDataToPrecincts : list PrecinctWithVoterData :=
  map (fun feature =>
         let electDist := ElectDist feature in
         let voterData := getVoterCounts electDist in
         {| pwv_feature := feature; voterCounts := voterData |}) features.

(** [getPrecinctsByCountyWithVoterData(county)] *)
Definition getPrecinctsByCountyWithVoterData (county_ : string)
  : list PrecinctWithVoterData :=
  filter (fun precinct =>
            match voterCounts precinct with
            | Some vd => String.eqb (county vd) county_
            | None => false
            end) addVoterDataToPrecincts.

(** The reducer of [getCountyVoterTotals]. *)
Definition add_voter_data (totals : CountyTotals) (precinct : PrecinctWithVoterData)
  : CountyTotals :=
  match voterCounts precinct with
  | Some voterData =>
      {| t_democrats := t_democrats totals + democrats voterData;
         t_republicans := t_republicans totals + republicans voterData;
         t_conservatives := t_conservatives totals + conservatives voterData;
         t_working_families := t_working_families totals + working_families voterData;
         t_other := t_other totals + other voterData;
         t_blank := t_blank totals + blank voterData;
         t_total := t_total totals + total voterData |}
  | None => totals
  end.

(** [getCountyVoterTotals(county)] *)
Definition getCountyVoterTotals (county_ : string) : CountyTotals :=
  fold_left add_voter_data (getPrecinctsByCountyWithVoterData county_)
    {| t_democrats := 0; t_republicans := 0; t_conservatives := 0;
       t_working_families := 0; t_other := 0; t_blank := 0; t_total := 0 |}.

End Integration.

(* ------------------------------------------------------------------ *)
(** ** Tables and colors used in statements *)

(** The Gen-Z ladder as a table of lower bounds, in ascending order. *)
Definition genZ_bins : list (Q * string) :=
  [(5, "#de77ae"); (10, "#f1b6da"); (15, "#b8e186"); (20, "#7fbc41");
   (25, "#4d9221"); (30, "#276419")].

(** The color string ["#rrggbb"] of three channel values, as [darkenColor]
    and [lightenColor] print it. *)
Definition hex_color (r g b : Z) : string :=
  "#" ++ channel_hex (Some r) ++ channel_hex (Some g) ++ channel_hex (Some b).

(** The registration records of the features of [county_], in feature
    order. *)
Definition county_records (getVoterCounts : Z -> option VoterCounts)
  (features : list Feature) (county_ : string) : list VoterCounts :=
  flat_map (fun f => match getVoterCounts (ElectDist f) with
                     | Some vd => if String.eqb (county vd) county_ then [vd] else []
                     | None => []
                     end) features.

Definition sum_field (field : VoterCounts -> Z) (l : list VoterCounts) : Z :=
  fold_right (fun vd s => (field vd + s)%Z) 0%Z l.

(* ------------------------------------------------------------------ *)
(** ** Concrete inputs *)

Module Inputs.

Definition precinct (id : string) (total_votes : Z) (res : JsObject.obj Z)
  : PrecinctResult :=
  {| item_id := id; scraped_item_id := id; geo_id := id;
     locality_name := None; votes := total_votes; results := res |}.

Definition feature (d : Z) : Feature :=
  {| ElectDist := d; other_properties := [] |}.

Definition registration (d : Z) (dem rep tot : Z) : VoterCounts :=
  {| district := d; county := "New York"; democrats := dem; republicans := rep;
     conservatives := 0; working_families := 0; other := 0; blank := 0;
     total := tot |}.

(** A precinct with three candidates and write-ins. *)
Definition pr_three : PrecinctResult :=
  precinct "74001" 1000
    [("cuomo-a", 300%Z); ("mamdani-z", 600%Z); ("lander-b", 80%Z);
     ("total_writeins", 20%Z)].

(** A single candidate whose key is the empty string. *)
Definition pr_empty_key : PrecinctResult := precinct "74002" 5 [("", 5%Z)].

(** A tie between a name key and an integer-like key inserted after it. *)
Definition pr_index_key : PrecinctResult :=
  precinct "74003" 10 [("b", 5%Z); ("7", 5%Z)].

(** Only write-in votes. *)
Definition pr_writeins_only : PrecinctResult :=
  precinct "74004" 5 [("total_writeins", 5%Z)].

(** A winning key that names a member of [Object.prototype]. *)
Definition pr_constructor : PrecinctResult :=
  precinct "74005" 10 [("constructor", 10%Z)].

(** A winning key that names a member of [Object.prototype], with a margin
    of 55%. *)
Definition pr_tostring : PrecinctResult :=
  precinct "74008" 20 [("toString", 11%Z); ("cuomo-a", 9%Z)].

(** A precinct with no ["mamdani-z"] entry. *)
Definition pr_no_mamdani : PrecinctResult :=
  precinct "74006" 500 [("cuomo-a", 400%Z); ("lander-b", 100%Z)].

Definition reg_of (d : Z) : option VoterCounts :=
  if (d =? 74001)%Z then Some (registration 74001 1200 300 2000)
  else if (d =? 74006)%Z then Some (registration 74006 700 100 1000)
  else if (d =? 74007)%Z then Some (registration 74007 0 0 0)
  else None.

Definition snapshot : list PrecinctResult :=
  [pr_three; pr_empty_key; pr_index_key; pr_writeins_only; pr_constructor;
   pr_no_mamdani; precinct "74007" 0 []; pr_tostring;
   precinct "74001" 1 [("adams-a", 1%Z)]].

(** Age brackets of a census tract. *)
Definition tract_ages : JsObject.obj AgeBracket :=
  [("5 to 9 years", Some 50%Z); ("10 to 14 years", Some 100%Z);
   ("15 to 19 years", Some 100%Z); ("25 to 29 years", Some 50%Z)].

End Inputs.

(* ================================================================== *)
(** * Properties *)

From Stdlib Require Import Lqa.

(* ------------------------------------------------------------------ *)
(** ** Winner selection *)

Lemma insert_desc_not_nil x l : insert_desc x l <> [].
Proof. destruct l as [|y l]; simpl; [discriminate|destruct (_ <=? _)%Z; discriminate]. Qed.

Lemma sort_desc_nil l : sort_desc l = [] -> l = [].
Proof.
  destruct l as [|x l]; simpl; [reflexivity|].
  intros H; exfalso; exact (insert_desc_not_nil _ _ H).
Qed.

(** The head of the stable descending sort is the first entry of largest
    count. *)
Lemma sort_desc_head l k v s :
  sort_desc l = (k, v) :: s ->
  exists pre post,
    l = (pre ++ (k, v) :: post)%list /\
    Forall (fun e => (snd e < v)%Z) pre /\
    Forall (fun e => (snd e <= v)%Z) post.
Proof.
  revert k v s; induction l as [|x l IH]; intros k v s Hs; simpl in Hs;
    [discriminate|].
  destruct (sort_desc l) as [|[k' v'] s'] eqn:Hl.
  - apply sort_desc_nil in Hl; subst l. simpl in Hs. injection Hs as <- _.
    exists [], []. repeat split; constructor.
  - destruct (IH k' v' s' eq_refl) as (pre & post & Heq & Hpre & Hpost).
    simpl in Hs. destruct (v' <=? snd x)%Z eqn:Hle.
    + injection Hs as Hx _. apply Z.leb_le in Hle. subst x. simpl in Hle.
      exists [], l. repeat split; [constructor|]. subst l.
      apply Forall_app; split.
      * eapply Forall_impl; [|exact Hpre]; intros e He; simpl in *; lia.
      * constructor; [simpl; lia|].
        eapply Forall_impl; [|exact Hpost]; intros e He; simpl in *; lia.
    + injection Hs as -> -> _. apply Z.leb_gt in Hle.
      exists (x :: pre), post. subst l. repeat split; auto.
Qed.

Lemma getWinningCandidate_first_max pr k :
  getWinningCandidate (Some pr) = Some k ->
  SpecReading.first_max (candidate_entries pr) k.
Proof.
  unfold getWinningCandidate.
  destruct (sort_desc (candidate_entries pr)) as [|[k' v'] s] eqn:Hs;
    [discriminate|].
  destruct (String.eqb k' "") eqn:He; [discriminate|].
  intros H; injection H as <-.
  destruct (sort_desc_head _ _ _ _ Hs) as (pre & post & ? & ? & ?).
  exists pre, v', post; auto.
Qed.

Lemma index_keys_none (o : JsObject.obj Z) :
  Forall (fun kv => JsNum.array_index (fst kv) = None) o ->
  JsObject.index_keys o = [].
Proof.
  induction 1 as [|[k v] o Hk _ IH]; simpl in *; [reflexivity|].
  rewrite Hk. exact IH.
Qed.

Lemma string_keys_none (o : JsObject.obj Z) :
  Forall (fun kv => JsNum.array_index (fst kv) = None) o ->
  JsObject.string_keys o = o.
Proof.
  unfold JsObject.string_keys.
  induction 1 as [|[k v] o Hk _ IH]; simpl in *; [reflexivity|].
  rewrite Hk. f_equal. exact IH.
Qed.

(** Without array-index keys, [Object.entries] is the insertion order. *)
Lemma entries_insertion_order (o : JsObject.obj Z) :
  Forall (fun kv => JsNum.array_index (fst kv) = None) o ->
  JsObject.entries o = o.
Proof.
  intros H. unfold JsObject.entries.
  rewrite (index_keys_none o H), (string_keys_none o H). reflexivity.
Qed.

(** Claim C2 (amended): [getWinningCandidate] returns [null] when no
    non-write-in entry exists; a returned key is the first key of largest
    count in [Object.entries] order; when entries exist and the first key of
    largest count is not the empty string, that key is returned; and
    [Object.entries] order is the insertion order when no key is an array
    index. *)
Theorem getWinningCandidate_spec pr :
  (candidate_entries pr = [] -> getWinningCandidate (Some pr) = None) /\
  (forall k, getWinningCandidate (Some pr) = Some k ->
     SpecReading.first_max (candidate_entries pr) k) /\
  (candidate_entries pr <> [] ->
     exists k, SpecReading.first_max (candidate_entries pr) k /\
       (k <> "" -> getWinningCandidate (Some pr) = Some k)) /\
  (Forall (fun kv => JsNum.array_index (fst kv) = None) (results pr) ->
     candidate_entries pr = SpecReading.insertion_candidates pr) /\
  getWinningCandidate None = None.
Proof.
  split; [|split; [|split; [|split]]].
  - intros H. unfold getWinningCandidate. rewrite H. reflexivity.
  - apply getWinningCandidate_first_max.
  - intros Hne.
    destruct (sort_desc (candidate_entries pr)) as [|[k v] s] eqn:Hs.
    + exfalso. exact (Hne (sort_desc_nil _ Hs)).
    + exists k. split.
      * destruct (sort_desc_head _ _ _ _ Hs) as (pre & post & ? & ? & ?).
        exists pre, v, post; auto.
      * intros Hk. unfold getWinningCandidate. rewrite Hs.
        apply String.eqb_neq in Hk. rewrite Hk. reflexivity.
  - intros H. unfold candidate_entries, SpecReading.insertion_candidates.
    rewrite entries_insertion_order by exact H. reflexivity.
  - reflexivity.
Qed.

Lemma getWinningCandidate_spec_witness :
  getWinningCandidate (Some Inputs.pr_three) = Some "mamdani-z" /\
  SpecReading.first_max (candidate_entries Inputs.pr_three) "mamdani-z".
Proof.
  split; [vm_compute; reflexivity|].
  apply (proj1 (proj2 (getWinningCandidate_spec Inputs.pr_three))).
  vm_compute. reflexivity.
Defined.

(** Claim C2 (counterexample): a candidate keyed by the empty string is
    never returned although the mapping is not empty, and on a tie the
    integer-like key ["7"] wins over the key ["b"] inserted before it. *)
Lemma getWinningCandidate_counterexample :
  (SpecReading.insertion_candidates Inputs.pr_empty_key <> [] /\
   getWinningCandidate (Some Inputs.pr_empty_key) = None) /\
  (SpecReading.first_max (SpecReading.insertion_candidates Inputs.pr_index_key) "b" /\
   getWinningCandidate (Some Inputs.pr_index_key) = Some "7").
Proof.
  split; split.
  - vm_compute. discriminate.
  - vm_compute. reflexivity.
  - exists [], 5%Z, [("7", 5%Z)]. split; [reflexivity|].
    split; constructor; simpl; [lia|constructor].
  - vm_compute. reflexivity.
Qed.

(* ------------------------------------------------------------------ *)
(** ** Join resolver *)

Lemma find_first {A} (f : A -> bool) pre r post :
  Forall (fun p => f p = false) pre -> f r = true ->
  find f (pre ++ r :: post)%list = Some r.
Proof.
  induction 1 as [|p pre Hp _ IH]; intros Hr; simpl.
  - rewrite Hr. reflexivity.
  - rewrite Hp. exact (IH Hr).
Qed.

Lemma find_split {A} (f : A -> bool) l r :
  find f l = Some r ->
  f r = true /\
  exists pre post, l = (pre ++ r :: post)%list /\ Forall (fun p => f p = false) pre.
Proof.
  induction l as [|x l IH]; simpl; [discriminate|].
  destruct (f x) eqn:Hx.
  - intros H; injection H as <-. split; [exact Hx|]. exists [], l. auto.
  - intros H. destruct (IH H) as (Hr & pre & post & -> & Hpre).
    split; [exact Hr|]. exists (x :: pre), post. auto.
Qed.

Lemma find_none_forall {A} (f : A -> bool) l :
  find f l = None <-> Forall (fun p => f p = false) l.
Proof.
  induction l as [|x l IH]; simpl; [split; auto|].
  destruct (f x) eqn:Hx; split.
  - discriminate.
  - intros H; inversion H; congruence.
  - intros H; constructor; [exact Hx|apply IH, H].
  - intros H; inversion H; apply IH; assumption.
Qed.

(** Claim C8: [getPrecinctResults] returns the first stored record whose
    [item_id] is the decimal string of the district number, and no record
    (with a logged notice, never an exception) when there is none. *)
Theorem getPrecinctResults_spec precincts d :
  (forall pre r post,
     precincts = (pre ++ r :: post)%list ->
     Forall (fun p => item_id p <> JsNum.to_string d) pre ->
     item_id r = JsNum.to_string d ->
     getPrecinctResults precincts d = ret (Some r)) /\
  (forall r, result (getPrecinctResults precincts d) = Returned (Some r) ->
     item_id r = JsNum.to_string d /\
     exists pre post, precincts = (pre ++ r :: post)%list /\
       Forall (fun p => item_id p <> JsNum.to_string d) pre) /\
  (getPrecinctResults precincts d = ([NoResultsFound d], Returned None) <->
     Forall (fun p => item_id p <> JsNum.to_string d) precincts) /\
  (result (getPrecinctResults precincts d) = Returned None \/
   exists r, result (getPrecinctResults precincts d) = Returned (Some r)).
Proof.
  set (f := fun p => String.eqb (item_id p) (JsNum.to_string d)).
  assert (Hf : forall l, Forall (fun p => item_id p <> JsNum.to_string d) l <->
                         Forall (fun p => f p = false) l).
  { intros l; split; intros H; (eapply Forall_impl; [|exact H]);
      intros p; unfold f; rewrite String.eqb_neq; auto. }
  unfold getPrecinctResults. fold f.
  split; [|split; [|split]].
  - intros pre r post -> Hpre Hr.
    rewrite find_first with (r := r); [reflexivity| |].
    + apply Hf, Hpre.
    + unfold f. apply String.eqb_eq, Hr.
  - intros r. destruct (find f precincts) as [r'|] eqn:Hfind; simpl;
      [|discriminate].
    intros H; injection H as <-.
    destruct (find_split f _ _ Hfind) as (Hr & pre & post & Heq & Hpre).
    split; [apply String.eqb_eq, Hr|].
    exists pre, post. split; [exact Heq|apply Hf, Hpre].
  - rewrite Hf, <- find_none_forall.
    destruct (find f precincts); cbn; split; intros H;
      solve [reflexivity | discriminate H].
  - destruct (find f precincts); simpl; eauto.
Qed.

Lemma getPrecinctResults_spec_witness :
  getPrecinctResults Inputs.snapshot 74001 = ret (Some Inputs.pr_three).
Proof.
  apply (proj1 (getPrecinctResults_spec Inputs.snapshot 74001)
           [] Inputs.pr_three (List.tl Inputs.snapshot)).
  - reflexivity.
  - constructor.
  - vm_compute. reflexivity.
Defined.

(* ------------------------------------------------------------------ *)
(** ** Style objects *)

Lemma bind_inv {A B} (m : M A) (k : A -> M B) b :
  result (bind m k) = Returned b ->
  exists a, result m = Returned a /\ result (k a) = Returned b.
Proof.
  unfold bind, result. destruct m as [l1 [a|e]]; simpl; [|discriminate].
  destruct (k a) as [l2 r] eqn:Hk. simpl. intros ->. exists a.
  rewrite Hk. auto.
Qed.

Lemma result_ret {A} (a b : A) : result (ret a) = Returned b -> a = b.
Proof. cbn. intros H; injection H; auto. Qed.

(** Walk a style function down to the style object it returns. *)
Ltac split_style H :=
  repeat match type of H with
  | result (bind _ _) = _ =>
      let a := fresh "a" in
      apply bind_inv in H; destruct H as (a & _ & H)
  | result (ret _) = _ => apply result_ret in H
  | result (match ?x with _ => _ end) = _ => destruct x
  | result (if ?b then _ else _) = _ => destruct b
  end.

(** Claim C10: in the four precinct views, every style object that is
    returned has [weight = 1], [opacity = 1], [color = "white"],
    [dashArray = "3"] and [fillOpacity = 0.7]; only [fillColor] varies. *)
Theorem precinct_style_frame precincts getVoterCounts vm f s :
  result (styleFunction precincts getVoterCounts vm f) = Returned s ->
  weight s = 1 /\ opacity s = 1 /\ color s = "white" /\
  dashArray s = Some "3" /\ fillOpacity s = 7#10.
Proof.
  intros H.
  destruct vm; cbn [styleFunction] in H;
    unfold stylePrecinctByResults, stylePrecinctByTurnout,
      stylePrecinctByVoters, stylePrecinctByZohranSupport in H;
    split_style H; subst s; repeat split.
Qed.

Lemma precinct_style_frame_witness :
  result (styleFunction Inputs.snapshot Inputs.reg_of ZohranSupport
            (Inputs.feature 74001)) =
    Returned (SpecReading.precinct_style (JStr "#276419")) /\
  weight (SpecReading.precinct_style (JStr "#276419")) = 1.
Proof.
  split; [vm_compute; reflexivity|].
  apply (precinct_style_frame Inputs.snapshot Inputs.reg_of ZohranSupport
           (Inputs.feature 74001)).
  vm_compute. reflexivity.
Defined.

(* ------------------------------------------------------------------ *)
(** ** Determinism *)

Lemma stylePrecinct_result precincts rnd f :
  result (stylePrecinct precincts rnd f) =
  Returned {| fillColor :=
                match getWinningCandidate
                        (find (fun p => String.eqb (item_id p)
                                          (JsNum.to_string (ElectDist f)))
                              precincts) with
                | Some w => lookup_or candidateColors w "#cccccc"
                | None => JStr "#cccccc"
                end;
              weight := 1; opacity := 1; color := "white";
              dashArray := Some "3"; fillOpacity := 7#10 |}.
Proof.
  unfold stylePrecinct, getPrecinctResults.
  destruct (find _ precincts); destruct (q_lt rnd (1#100)); reflexivity.
Qed.

(** Claim C9: over a fixed snapshot, each precinct styling is a function of
    the district number and the view mode alone (its log included), and in
    the earlier component the value drawn by [Math.random()] changes only
    what is logged, never the returned style. *)
Theorem style_deterministic :
  (forall precincts getVoterCounts vm f1 f2,
     ElectDist f1 = ElectDist f2 ->
     styleFunction precincts getVoterCounts vm f1 =
     styleFunction precincts getVoterCounts vm f2) /\
  (forall precincts rnd1 rnd2 f1 f2,
     ElectDist f1 = ElectDist f2 ->
     result (stylePrecinct precincts rnd1 f1) =
     result (stylePrecinct precincts rnd2 f2)).
Proof.
  split.
  - intros precincts gvc vm f1 f2 H.
    destruct vm; cbn [styleFunction];
      unfold stylePrecinctByResults, stylePrecinctByTurnout,
        stylePrecinctByVoters, stylePrecinctByZohranSupport;
      rewrite H; reflexivity.
  - intros precincts r1 r2 f1 f2 H.
    rewrite !stylePrecinct_result, H. reflexivity.
Qed.

Lemma style_deterministic_witness :
  styleFunction Inputs.snapshot Inputs.reg_of Turnout (Inputs.feature 74006) =
  styleFunction Inputs.snapshot Inputs.reg_of Turnout
    {| ElectDist := 74006; other_properties := [("BoroCode", "1")] |} /\
  result (stylePrecinct Inputs.snapshot 0 (Inputs.feature 74001)) =
  result (stylePrecinct Inputs.snapshot (1#2) (Inputs.feature 74001)).
Proof.
  split.
  - apply (proj1 style_deterministic). reflexivity.
  - apply (proj2 style_deterministic). reflexivity.
Defined.

(* ------------------------------------------------------------------ *)
(** ** Threshold ladders *)

Lemma Qle_bool_false a b : Qle_bool a b = false -> ~ a <= b.
Proof. intros H Hle. apply Qle_bool_iff in Hle. congruence. Qed.

(** Split a ladder of [Qle_bool] tests and close each branch by linear
    arithmetic over [Q]. *)
Ltac ladder_split :=
  unfold q_ge, q_lt, q_gt in *;
  repeat match goal with
  | |- context [Qle_bool ?a ?b] =>
      let E := fresh "E" in destruct (Qle_bool a b) eqn:E; simpl
  end;
  repeat match goal with
  | H : Qle_bool _ _ = true |- _ => apply Qle_bool_iff in H
  | H : Qle_bool _ _ = false |- _ => apply Qle_bool_false in H
  end.

Ltac ladder := ladder_split; solve [reflexivity | exfalso; lra | lra].

Lemma zohran_color_nonpos x : x <= 0 -> zohran_color x = "#c51b7d".
Proof. intros Hx. unfold zohran_color. ladder. Qed.

Lemma getPrecinctResults_found precincts d pr :
  result (getPrecinctResults precincts d) = Returned (Some pr) ->
  getPrecinctResults precincts d = ret (Some pr).
Proof.
  unfold getPrecinctResults. destruct (find _ precincts); cbn; congruence.
Qed.

Lemma zero_share t : qdiv_z 0 t * 100 == 0.
Proof.
  unfold qdiv_z, Qdiv. change (inject_Z 0) with 0.
  rewrite Qmult_0_l, Qmult_0_l. reflexivity.
Qed.

(** Claim C7: a precinct whose election record has no ["mamdani-z"] entry
    counts 0 targeted votes; with a registration total above 0 and 0
    targeted votes the support is 0% and the fill is the no-support color
    ["#c51b7d"]; without a registration record the fill is the no-data
    color ["#cccccc"], a different color. *)
Theorem zohran_no_support precincts getVoterCounts f pr :
  result (getPrecinctResults precincts (ElectDist f)) = Returned (Some pr) ->
  (JsObject.get "mamdani-z" (results pr) = None -> zohranVotes pr = 0%Z) /\
  (forall vd, getVoterCounts (ElectDist f) = Some vd -> (total vd > 0)%Z ->
     zohranVotes pr = 0%Z ->
     zohranSupportPercentage pr vd == 0 /\
     result (stylePrecinctByZohranSupport precincts getVoterCounts f) =
       Returned (SpecReading.precinct_style (JStr "#c51b7d"))) /\
  (getVoterCounts (ElectDist f) = None ->
     result (stylePrecinctByZohranSupport precincts getVoterCounts f) =
       Returned (SpecReading.precinct_style (JStr "#cccccc"))) /\
  "#c51b7d" <> "#cccccc".
Proof.
  intros Hpr. apply getPrecinctResults_found in Hpr.
  split; [|split; [|split]].
  - unfold zohranVotes. intros ->. reflexivity.
  - intros vd Hvd Htot Hz.
    assert (Hs : zohranSupportPercentage pr vd == 0).
    { unfold zohranSupportPercentage. rewrite Hz. apply zero_share. }
    split; [exact Hs|].
    unfold stylePrecinctByZohranSupport. rewrite Hpr. cbn [bind ret].
    rewrite Hvd. replace (total vd =? 0)%Z with false by lia.
    rewrite zohran_color_nonpos by (rewrite Hs; apply Qle_refl).
    reflexivity.
  - intros Hvd. unfold stylePrecinctByZohranSupport. rewrite Hpr.
    cbn [bind ret]. rewrite Hvd. reflexivity.
  - discriminate.
Qed.

Lemma zohran_no_support_witness :
  result (getPrecinctResults Inputs.snapshot 74006) = Returned (Some Inputs.pr_no_mamdani) /\
  zohranVotes Inputs.pr_no_mamdani = 0%Z /\
  result (stylePrecinctByZohranSupport Inputs.snapshot Inputs.reg_of (Inputs.feature 74006)) =
    Returned (SpecReading.precinct_style (JStr "#c51b7d")).
Proof.
  assert (Hpr : result (getPrecinctResults Inputs.snapshot 74006) =
                Returned (Some Inputs.pr_no_mamdani)) by (vm_compute; reflexivity).
  destruct (zohran_no_support Inputs.snapshot Inputs.reg_of (Inputs.feature 74006)
              Inputs.pr_no_mamdani Hpr) as (Hz & Hs & _ & _).
  split; [exact Hpr|].
  assert (Hz0 : zohranVotes Inputs.pr_no_mamdani = 0%Z) by (apply Hz; reflexivity).
  split; [exact Hz0|].
  apply (Hs (Inputs.registration 74006 700 100 1000)); [reflexivity|simpl; lia|exact Hz0].
Defined.

Lemma turnout_color_bins x :
  turnout_color x = SpecReading.bin_lookup "#bee3f8" SpecReading.turnout_bins x.
Proof.
  unfold turnout_color, SpecReading.bin_lookup, SpecReading.turnout_bins.
  cbn [fold_left fst snd]. ladder.
Qed.

Lemma voters_color_bins x :
  voters_color x = SpecReading.bin_lookup "#d62728" SpecReading.voters_bins x.
Proof.
  unfold voters_color, SpecReading.bin_lookup, SpecReading.voters_bins.
  cbn [fold_left fst snd]. ladder.
Qed.

Lemma zohran_color_bins x :
  zohran_color x =
  if Qle_bool x 0 then "#c51b7d"
  else SpecReading.bin_lookup "#de77ae" SpecReading.zohran_upper_bins x.
Proof.
  unfold zohran_color, SpecReading.bin_lookup, SpecReading.zohran_upper_bins.
  cbn [fold_left fst snd]. ladder.
Qed.

(** Claim C6 (amended): the turnout and registration ladders are tables of
    6 bins, each closed below and open above, the top one unbounded above;
    the Zohran-support ladder has 8 bins of that form except its two lowest,
    the no-support bin for support [<= 0] and the bin [(0, 2.5)], open at 0.
    A turnout of 60 is in the top bin, a registration share of 30 in
    [[30, 40)], a support of 2.5 in [[2.5, 5)]. *)
Theorem threshold_tables :
  (forall x, turnout_color x =
     SpecReading.bin_lookup "#bee3f8" SpecReading.turnout_bins x) /\
  (forall x, voters_color x =
     SpecReading.bin_lookup "#d62728" SpecReading.voters_bins x) /\
  (forall x, zohran_color x =
     if Qle_bool x 0 then "#c51b7d"
     else SpecReading.bin_lookup "#de77ae" SpecReading.zohran_upper_bins x) /\
  SpecReading.bin_count SpecReading.turnout_bins = 6%nat /\
  SpecReading.bin_count SpecReading.voters_bins = 6%nat /\
  (2 + length SpecReading.zohran_upper_bins = 8)%nat /\
  turnout_color 60 = "#1a365d" /\ voters_color 30 = "#ff7f0e" /\
  zohran_color (5#2) = "#f1b6da".
Proof.
  split; [exact turnout_color_bins|].
  split; [exact voters_color_bins|].
  split; [exact zohran_color_bins|].
  repeat split; reflexivity.
Qed.

Lemma zohran_color_low x : 0 < x -> x < 5#2 -> zohran_color x = "#de77ae".
Proof. intros H0 H1. unfold zohran_color. ladder. Qed.

(** Claim C6 (counterexample): the Zohran-support bin ["#de77ae"] is the
    interval (0, 2.5), which no interval closed at its lower boundary
    matches: a support of exactly 0 falls in the lower no-support bin. *)
Lemma threshold_tables_counterexample :
  zohran_color 0 = "#c51b7d" /\
  ~ (exists lo, forall x, zohran_color x = "#de77ae" <-> lo <= x /\ x < 5#2).
Proof.
  split; [reflexivity|].
  intros (lo & Hlo).
  assert (Hpos : 0 < lo).
  { apply Qnot_le_lt. intros Hle.
    assert (H0 : zohran_color 0 = "#de77ae") by (apply Hlo; split; [exact Hle|reflexivity]).
    discriminate H0. }
  assert (H1 : lo <= 1).
  { apply (proj1 (proj1 (Hlo 1) (zohran_color_low 1 eq_refl eq_refl))). }
  assert (Hhalf : lo <= lo * (1#2)).
  { apply (proj1 (Hlo (lo * (1#2)))). apply zohran_color_low; lra. }
  lra.
Qed.

(* ------------------------------------------------------------------ *)
(** ** Zero denominators *)

Lemma voters_color_zero : voters_color 0 = "#d62728".
Proof. reflexivity. Qed.

(** Claim C1 (amended): a zero denominator is guarded in the Zohran-support
    view (registration total) and the turnout view (Democratic count), which
    then return the no-data color ["#cccccc"]; for a registration total of 0
    the Democratic share of the registration view and of the popup falls
    back to 0 (the popup prints ["0"]), and the registration view colors it
    with its lowest bucket ["#d62728"]. *)
Theorem zero_denominators precincts getVoterCounts f vd :
  getVoterCounts (ElectDist f) = Some vd ->
  ((democrats vd = 0)%Z ->
     result (stylePrecinctByTurnout precincts getVoterCounts f) =
       Returned (SpecReading.precinct_style (JStr "#cccccc"))) /\
  ((total vd = 0)%Z ->
     result (stylePrecinctByZohranSupport precincts getVoterCounts f) =
       Returned (SpecReading.precinct_style (JStr "#cccccc")) /\
     demPercentage vd = 0 /\
     result (stylePrecinctByVoters getVoterCounts f) =
       Returned (SpecReading.precinct_style (JStr "#d62728")) /\
     popup_demPercentage vd = Literal "0" /\
     popup_repPercentage vd = Literal "0").
Proof.
  intros Hvd. split.
  - intros Hdem. unfold stylePrecinctByTurnout, getPrecinctResults.
    destruct (find _ precincts); cbn [bind ret log result];
      try rewrite Hvd; try rewrite Hdem; reflexivity.
  - intros Htot.
    assert (Hdp : demPercentage vd = 0) by (unfold demPercentage; rewrite Htot; reflexivity).
    split; [|split; [exact Hdp|split; [|split]]].
    + unfold stylePrecinctByZohranSupport, getPrecinctResults.
      destruct (find _ precincts); cbn [bind ret log result];
        try rewrite Hvd; try rewrite Htot; reflexivity.
    + unfold stylePrecinctByVoters. rewrite Hvd, Hdp. reflexivity.
    + unfold popup_demPercentage, popup_share. rewrite Htot. reflexivity.
    + unfold popup_repPercentage, popup_share. rewrite Htot. reflexivity.
Qed.

Lemma zero_denominators_witness :
  result (stylePrecinctByVoters Inputs.reg_of (Inputs.feature 74007)) =
    Returned (SpecReading.precinct_style (JStr "#d62728")).
Proof.
  apply (proj2 (zero_denominators Inputs.snapshot Inputs.reg_of (Inputs.feature 74007)
           (Inputs.registration 74007 0 0 0) eq_refl) eq_refl).
Defined.

(** Claim C1 (counterexample): a registration record with total 0 gets a
    numeric Democratic share of 0 and the color ["#d62728"] in the
    registration view, not the no-data color. *)
Lemma zero_denominators_counterexample :
  Inputs.reg_of 74007 = Some (Inputs.registration 74007 0 0 0) /\
  demPercentage (Inputs.registration 74007 0 0 0) = 0 /\
  result (stylePrecinctByVoters Inputs.reg_of (Inputs.feature 74007)) =
    Returned (SpecReading.precinct_style (JStr "#d62728")) /\
  JStr "#d62728" <> JStr "#cccccc".
Proof.
  split; [reflexivity|split; [reflexivity|split; [vm_compute; reflexivity|discriminate]]].
Qed.

(* ------------------------------------------------------------------ *)
(** ** Results view *)

Lemma In_insert_index {A} (e x : Z * (string * A)) l :
  In e (JsObject.insert_index x l) -> e = x \/ In e l.
Proof.
  induction l as [|y l IH]; simpl.
  - intros [H|[]]; auto.
  - destruct (fst x <=? fst y)%Z; simpl.
    + intros [H|[H|H]]; auto.
    + intros [H|H]; auto. destruct (IH H); auto.
Qed.

Lemma In_index_keys {A} (o : JsObject.obj A) n kv :
  In (n, kv) (JsObject.index_keys o) -> In kv o.
Proof.
  induction o as [|[k v] o IH]; simpl; [intros []|].
  destruct (JsNum.array_index k) as [m|].
  - intros H. destruct (In_insert_index _ _ _ H) as [He|He].
    + injection He as _ <-. auto.
    + auto.
  - auto.
Qed.

(** Every entry of [Object.entries(o)] is an own property of [o]. *)
Lemma In_entries {A} (o : JsObject.obj A) kv :
  In kv (JsObject.entries o) -> In kv o.
Proof.
  unfold JsObject.entries, JsObject.string_keys. intros H.
  apply in_app_or in H as [H|H].
  - apply in_map_iff in H as ([n kv'] & <- & H). exact (In_index_keys o n kv' H).
  - apply filter_In in H. apply H.
Qed.

Lemma get_In {A} (o : JsObject.obj A) k v :
  In (k, v) o -> exists v', JsObject.get k o = Some v'.
Proof.
  induction o as [|[k' v0] o IH]; simpl; [intros []|].
  destruct (String.eqb k k') eqn:E; [eauto|].
  intros [H|H]; [|auto].
  injection H as -> _. rewrite String.eqb_refl in E. discriminate.
Qed.

Lemma winner_has_votes pr w :
  getWinningCandidate (Some pr) = Some w ->
  exists v, JsObject.get w (results pr) = Some v.
Proof.
  intros H. destruct (getWinningCandidate_first_max pr w H) as (pre & v & post & Heq & _).
  assert (Hin : In (w, v) (candidate_entries pr)).
  { rewrite Heq. apply in_or_app. right. left. reflexivity. }
  unfold candidate_entries in Hin. apply filter_In in Hin as [Hin _].
  exact (get_In _ _ _ (In_entries _ _ Hin)).
Qed.

(** Claim C5 (amended): in the results view, for a precinct with an
    election record whose winner [w] is returned by [getWinningCandidate],
    the fill is the base color of [w] (the table entry, [#cccccc] for a key
    absent from the table) shaded by the tier of its win margin: below 40
    lightened by 0.4, [[40, 50)] lightened by 0.2, [[50, 60)] unchanged,
    [[60, 80)] darkened by 0.2, from 80 darkened by 0.3; the margin is 0
    when no votes were cast, and a margin of exactly 50 keeps the base
    color. *)
Theorem results_tiers precincts f pr w :
  result (getPrecinctResults precincts (ElectDist f)) = Returned (Some pr) ->
  getWinningCandidate (Some pr) = Some w ->
  (exists v, JsObject.get w (results pr) = Some v /\
     result (stylePrecinctByResults precincts f) =
     result (c <- SpecReading.tier_shade (lookup_or candidateBaseColors w "#cccccc")
                    (SpecReading.win_margin pr v) ;;
             ret (SpecReading.precinct_style c))) /\
  (forall base, SpecReading.tier_shade base 50 = ret base).
Proof.
  intros Hpr Hw. split.
  - destruct (winner_has_votes pr w Hw) as [v Hv].
    exists v. split; [exact Hv|].
    apply getPrecinctResults_found in Hpr.
    unfold stylePrecinctByResults. rewrite Hpr. cbn [bind ret].
    rewrite Hw, Hv.
    unfold SpecReading.win_margin, SpecReading.tier_shade, num_ge.
    destruct (votes pr >? 0)%Z;
      generalize (lookup_or candidateBaseColors w "#cccccc"); intros base;
      ladder_split; try (exfalso; lra);
      repeat match goal with
      | |- context [darkenColor ?b ?a] => destruct (darkenColor b a) as [? [?|?]]
      | |- context [lightenColor ?b ?a] => destruct (lightenColor b a) as [? [?|?]]
      end; reflexivity.
  - intros base. reflexivity.
Qed.

Lemma results_tiers_witness :
  result (stylePrecinctByResults Inputs.snapshot (Inputs.feature 74001)) =
  result (c <- SpecReading.tier_shade (JStr "#2ca02c") 60 ;;
          ret (SpecReading.precinct_style c)).
Proof.
  destruct (results_tiers Inputs.snapshot (Inputs.feature 74001)
              Inputs.pr_three "mamdani-z" (eq_refl _) (eq_refl _))
    as ((v & Hv & Hs) & _).
  rewrite Hs. vm_compute in Hv. injection Hv as <-. vm_compute. reflexivity.
Defined.

(** Claim C5 (counterexample): a non-empty candidate mapping with no
    winner: only write-in votes, or a single candidate keyed by the empty
    string; the fill is the no-data color, with no winning candidate to
    shade. *)
Lemma results_tiers_counterexample :
  (results Inputs.pr_writeins_only <> [] /\
   getWinningCandidate (Some Inputs.pr_writeins_only) = None /\
   result (stylePrecinctByResults Inputs.snapshot (Inputs.feature 74004)) =
     Returned (SpecReading.precinct_style (JStr "#cccccc"))) /\
  (results Inputs.pr_empty_key <> [] /\
   getWinningCandidate (Some Inputs.pr_empty_key) = None /\
   result (stylePrecinctByResults Inputs.snapshot (Inputs.feature 74002)) =
     Returned (SpecReading.precinct_style (JStr "#cccccc"))).
Proof.
  split; (split; [discriminate|split; vm_compute; reflexivity]).
Qed.

(* ------------------------------------------------------------------ *)
(** ** Gen-Z share *)

Lemma insert_index_perm {A} (x : Z * (string * A)) l :
  Permutation (JsObject.insert_index x l) (x :: l).
Proof.
  induction l as [|y l IH]; simpl; [reflexivity|].
  destruct (fst x <=? fst y)%Z; [reflexivity|].
  rewrite IH. apply perm_swap.
Qed.

(** [Object.entries(o)] lists the own properties of [o], reordered. *)
Lemma entries_perm {A} (o : JsObject.obj A) : Permutation (JsObject.entries o) o.
Proof.
  unfold JsObject.entries, JsObject.string_keys.
  induction o as [|[k v] o IH]; simpl; [reflexivity|].
  destruct (JsNum.array_index k).
  - rewrite insert_index_perm. simpl. constructor. exact IH.
  - rewrite <- Permutation_middle. constructor. exact IH.
Qed.

Lemma genZ_step_add acc e : genZ_step acc e == acc + genZ_step 0 e.
Proof.
  destruct e as [k [c|]]; simpl; [|ring].
  destruct (c >? 0)%Z; [|ring].
  repeat match goal with |- context [String.eqb ?a ?b] => destruct (String.eqb a b) end;
    ring.
Qed.

Lemma genZ_fold l acc : fold_left genZ_step l acc == acc + genZ_sum l.
Proof.
  revert acc; induction l as [|e l IH]; intros acc; simpl; [ring|].
  rewrite IH, genZ_step_add. ring.
Qed.

Lemma genZ_sum_perm l l' : Permutation l l' -> genZ_sum l == genZ_sum l'.
Proof.
  induction 1 as [|e l l' _ IH|e e' l|l l' l'' _ IH1 _ IH2]; simpl.
  - reflexivity.
  - fold (genZ_sum l) (genZ_sum l'). rewrite IH. reflexivity.
  - ring.
  - rewrite IH1. exact IH2.
Qed.

Lemma bracket_count_cons k v l name :
  SpecReading.bracket_count ((k, v) :: l) name =
  if String.eqb name k then match v with Some c => c | None => 0%Z end
  else SpecReading.bracket_count l name.
Proof.
  unfold SpecReading.bracket_count. simpl.
  destruct (String.eqb name k); [destruct v|]; reflexivity.
Qed.

Lemma bracket_count_notin l name :
  ~ In name (map fst l) -> SpecReading.bracket_count l name = 0%Z.
Proof.
  unfold SpecReading.bracket_count.
  induction l as [|[k v] l IH]; simpl; [reflexivity|].
  intros Hn. destruct (String.eqb name k) eqn:E.
  - apply String.eqb_eq in E. subst. exfalso. apply Hn. left. reflexivity.
  - apply IH. intros H. apply Hn. right. exact H.
Qed.

Ltac eqb_names :=
  repeat match goal with
  | H : ?k <> ?s |- context [String.eqb ?k ?s] =>
      rewrite (proj2 (String.eqb_neq k s) H)
  | H : ?k <> ?s |- context [String.eqb ?s ?k] =>
      rewrite (proj2 (String.eqb_neq s k) (not_eq_sym H))
  end.

(** With distinct keys and non-negative counts, the summed contributions
    are the weighted sum of the four brackets read by name. *)
Lemma genZ_sum_weighted l :
  NoDup (map fst l) ->
  Forall (fun kv => match snd kv with Some c => (0 <= c)%Z | None => True end) l ->
  genZ_sum l == SpecReading.genZ_weighted l.
Proof.
  induction l as [|[k v] l IH]; intros Hnd Hnn.
  - reflexivity.
  - simpl in Hnd. inversion Hnd as [|? ? Hk Hnd']; subst.
    inversion Hnn as [|? ? Hv Hnn']; subst. simpl in Hv.
    simpl. fold (genZ_sum l). rewrite (IH Hnd' Hnn').
    unfold SpecReading.genZ_weighted. rewrite !bracket_count_cons.
    assert (Hc : forall c, v = Some c -> (c >? 0)%Z = false -> c = 0%Z).
    { intros c -> Hgt. rewrite Z.gtb_ltb, Z.ltb_ge in Hgt. lia. }
    destruct (string_dec k "10 to 14 years") as [->|n1];
    [|destruct (string_dec k "15 to 19 years") as [->|n2];
    [|destruct (string_dec k "20 to 24 years") as [->|n3];
    [|destruct (string_dec k "25 to 29 years") as [->|n4]]]];
      try (rewrite (bracket_count_notin l _ Hk)); eqb_names; cbn [String.eqb Ascii.eqb Bool.eqb andb];
      destruct v as [c|]; simpl; try ring;
      destruct (c >? 0)%Z eqn:Hgt; simpl; try ring;
      rewrite (Hc c eq_refl Hgt); simpl; ring.
Qed.

(** Claim C4 (amended): for an [ageGroups] object (distinct keys,
    non-negative counts) and a population above 0, the share is [null]
    exactly when the weighted count
    [0.8 * c("10 to 14") + c("15 to 19") + c("20 to 24") + 0.4 * c("25 to 29")]
    is 0, and otherwise it is that count divided by the population, times
    100; it is [null] when the population is 0 or absent, or when
    [ageGroups] is absent. *)
Theorem genZ_share :
  (forall (ag : JsObject.obj AgeBracket) tp,
     NoDup (map fst ag) -> counts_nonneg ag -> (tp > 0)%Z ->
     match calculateGenZPercentage (Some ag) (Some tp) with
     | Some q => ~ SpecReading.genZ_weighted ag == 0 /\
                 q == SpecReading.genZ_weighted ag / inject_Z tp * 100
     | None => SpecReading.genZ_weighted ag == 0
     end) /\
  (forall ag, calculateGenZPercentage ag None = None /\
              calculateGenZPercentage ag (Some 0%Z) = None) /\
  (forall tp, calculateGenZPercentage None tp = None).
Proof.
  split; [|split].
  - intros ag tp Hnd Hnn Htp. unfold calculateGenZPercentage.
    replace (tp =? 0)%Z with false by lia.
    assert (Hg : fold_left genZ_step (JsObject.entries ag) 0 ==
                 SpecReading.genZ_weighted ag).
    { rewrite genZ_fold, (genZ_sum_perm _ _ (entries_perm ag)).
      rewrite (genZ_sum_weighted ag Hnd Hnn). ring. }
    destruct (Qeq_bool (fold_left genZ_step (JsObject.entries ag) 0) 0) eqn:E.
    + apply Qeq_bool_iff in E. rewrite <- Hg. exact E.
    + split.
      * intros H. rewrite <- Hg in H. apply Qeq_bool_iff in H. congruence.
      * rewrite Hg. reflexivity.
  - intros [ag|]; split; reflexivity.
  - intros [tp|]; reflexivity.
Qed.

Lemma genZ_share_witness :
  exists q, calculateGenZPercentage (Some Inputs.tract_ages) (Some 1000%Z) = Some q /\
            q == SpecReading.genZ_weighted Inputs.tract_ages / inject_Z 1000 * 100.
Proof.
  pose proof (proj1 genZ_share Inputs.tract_ages 1000%Z) as H.
  assert (Hnd : NoDup (map fst Inputs.tract_ages)).
  { repeat constructor; simpl; intuition discriminate. }
  assert (Hnn : counts_nonneg Inputs.tract_ages).
  { repeat constructor; simpl; lia. }
  specialize (H Hnd Hnn ltac:(lia)).
  destruct (calculateGenZPercentage (Some Inputs.tract_ages) (Some 1000%Z)) as [q|] eqn:E.
  - exists q. split; [reflexivity|exact (proj2 H)].
  - vm_compute in E. discriminate E.
Defined.

(** Claim C4 (counterexample): a tract with 100 inhabitants whose only
    Gen-Z bracket counts 0 has a weighted count of 0 and a [null] share,
    not a share of 0; an absent [ageGroups] also gives [null]. *)
Lemma genZ_share_counterexample :
  SpecReading.genZ_weighted [("15 to 19 years", Some 0%Z)] == 0 /\
  calculateGenZPercentage (Some [("15 to 19 years", Some 0%Z)]) (Some 100%Z) = None /\
  calculateGenZPercentage None (Some 100%Z) = None.
Proof. split; [reflexivity|split; reflexivity]. Qed.

(* ------------------------------------------------------------------ *)
(** ** Missing join data *)

(** In every precinct view, a missing election or registration record that
    the view needs gives the no-data color. *)
Lemma styleFunction_no_data precincts getVoterCounts vm f :
  (result (getPrecinctResults precincts (ElectDist f)) = Returned None /\
     vm <> VoterRegistration /\ vm <> AgeDemographics \/
   getVoterCounts (ElectDist f) = None /\ vm <> ElectionResults) ->
  result (styleFunction precincts getVoterCounts vm f) =
    Returned (SpecReading.precinct_style (JStr "#cccccc")).
Proof.
  intros H.
  assert (Hpr : result (getPrecinctResults precincts (ElectDist f)) = Returned None ->
                getPrecinctResults precincts (ElectDist f) =
                  ([NoResultsFound (ElectDist f)], Returned None)).
  { unfold getPrecinctResults. destruct (find _ precincts); cbn; congruence. }
  destruct H as [(Hr & H1 & H2)|(Hv & H1)].
  - apply Hpr in Hr.
    destruct vm; try congruence; cbn [styleFunction];
      unfold stylePrecinctByResults, stylePrecinctByTurnout,
        stylePrecinctByZohranSupport;
      rewrite Hr; reflexivity.
  - destruct vm; try congruence; cbn [styleFunction];
      unfold stylePrecinctByTurnout, stylePrecinctByVoters,
        stylePrecinctByZohranSupport, getPrecinctResults;
      try (destruct (find _ precincts); cbn [bind ret log]);
      try rewrite Hv; reflexivity.
Qed.

(** Claim C3 (failing input): a winning candidate key naming a member of
    [Object.prototype] reads an inherited function from
    [candidateBaseColors]; with a win margin of 100% [darkenColor] calls
    [replace] on it and throws a [TypeError], and with a margin of 55% the
    function itself becomes the fill color. *)
Theorem styleFunction_prototype_key :
  getWinningCandidate (Some Inputs.pr_constructor) = Some "constructor" /\
  lookup_or candidateBaseColors "constructor" "#cccccc" = JProto "constructor" /\
  styleFunction Inputs.snapshot Inputs.reg_of ElectionResults (Inputs.feature 74005) =
    ([], Threw "TypeError: color.replace is not a function") /\
  result (styleFunction Inputs.snapshot Inputs.reg_of ElectionResults
            (Inputs.feature 74008)) =
    Returned (SpecReading.precinct_style (JProto "toString")).
Proof. repeat split; vm_compute; reflexivity. Qed.

(* ------------------------------------------------------------------ *)
(** ** Precinct popups, census tracts and county totals *)

From Stdlib Require Import Sorted.

Lemma insert_desc_perm x l : Permutation (insert_desc x l) (x :: l).
Proof.
  induction l as [|y l IH]; simpl; [reflexivity|].
  destruct (snd y <=? snd x)%Z; [reflexivity|].
  rewrite IH. apply perm_swap.
Qed.

Lemma sort_desc_perm l : Permutation (sort_desc l) l.
Proof.
  induction l as [|x l IH]; simpl; [reflexivity|].
  rewrite insert_desc_perm. constructor. exact IH.
Qed.

Lemma insert_desc_sorted x l :
  Sorted (fun a b : string * Z => (snd b <= snd a)%Z) l ->
  Sorted (fun a b : string * Z => (snd b <= snd a)%Z) (insert_desc x l).
Proof.
  induction l as [|y l IH]; simpl; intros H.
  - repeat constructor.
  - destruct (snd y <=? snd x)%Z eqn:E.
    + constructor; [exact H|]. constructor. apply Z.leb_le in E. exact E.
    + apply Sorted_inv in H as [Hl Hy]. apply Z.leb_gt in E.
      constructor; [apply IH; exact Hl|].
      destruct l as [|z l]; simpl.
      * constructor. lia.
      * destruct (snd z <=? snd x)%Z; constructor.
        -- lia.
        -- inversion Hy; assumption.
Qed.

Lemma sort_desc_sorted l :
  Sorted (fun a b : string * Z => (snd b <= snd a)%Z) (sort_desc l).
Proof.
  induction l as [|x l IH]; simpl; [constructor|].
  apply insert_desc_sorted. exact IH.
Qed.

Lemma sort_desc_rest_le l k v s :
  sort_desc l = (k, v) :: s -> Forall (fun e => (snd e <= v)%Z) s.
Proof.
  intros Hs. pose proof (sort_desc_sorted l) as H. rewrite Hs in H.
  apply Sorted_StronglySorted in H; [|intros a b c; simpl; lia].
  apply StronglySorted_inv in H as [_ H]. exact H.
Qed.

Lemma ranking_row_votes t e : row_votes (ranking_row t e) = snd e.
Proof. destruct e; reflexivity. Qed.

Lemma ranking_row_label t e :
  row_label (ranking_row t e) = lookup_or candidateNames (fst e) (fst e).
Proof. destruct e; reflexivity. Qed.

Lemma insert_desc_filter x l v :
  filter (fun e => (snd e =? v)%Z) (insert_desc x l) =
  filter (fun e => (snd e =? v)%Z) (x :: l).
Proof.
  induction l as [|y l IH]; simpl; [reflexivity|].
  destruct (snd y <=? snd x)%Z eqn:E; [reflexivity|].
  apply Z.leb_gt in E. simpl. rewrite IH. simpl.
  destruct (snd x =? v)%Z eqn:Ex, (snd y =? v)%Z eqn:Ey; try reflexivity.
  apply Z.eqb_eq in Ex, Ey. lia.
Qed.

(** The ranking sort keeps, for every vote count, the candidates with that
    count in their [Object.entries] order: the comparator [b - a] under a
    stable sort. *)
Theorem sort_desc_stable l v :
  filter (fun e => (snd e =? v)%Z) (sort_desc l) =
  filter (fun e => (snd e =? v)%Z) l.
Proof.
  induction l as [|x l IH]; simpl; [reflexivity|].
  rewrite insert_desc_filter. simpl. rewrite IH. reflexivity.
Qed.

(** Unfold [onEachPrecinct] at a precinct with an election record. *)
Ltac popup_found H :=
  apply getPrecinctResults_found in H;
  unfold onEachPrecinct; rewrite H; cbn [bind ret result snd app].

(** The popup of a precinct with an election record lists one ranking row
    per candidate entry ([total_writeins] left out), ordered by votes from
    the highest down. *)
Theorem popup_ranking_sorted precincts getVoterCounts f vm pr :
  result (getPrecinctResults precincts (ElectDist f)) = Returned (Some pr) ->
  exists p rs l,
    result (onEachPrecinct precincts getVoterCounts f vm) = Returned p /\
    popup_results p = Some rs /\
    rs_ranking rs = map (ranking_row (votes pr)) l /\
    Permutation l (candidate_entries pr) /\
    Sorted (fun a b => (snd b <= snd a)%Z) l.
Proof.
  intros H. popup_found H.
  do 3 eexists. split; [reflexivity|]. split; [reflexivity|].
  split; [reflexivity|]. split; [apply sort_desc_perm|apply sort_desc_sorted].
Qed.

Lemma popup_ranking_sorted_witness :
  result (getPrecinctResults Inputs.snapshot (ElectDist (Inputs.feature 74001))) =
    Returned (Some Inputs.pr_three) /\
  exists p rs l,
    result (onEachPrecinct Inputs.snapshot Inputs.reg_of (Inputs.feature 74001)
              ZohranSupport) = Returned p /\
    popup_results p = Some rs /\
    rs_ranking rs = map (ranking_row (votes Inputs.pr_three)) l /\
    Permutation l (candidate_entries Inputs.pr_three) /\
    Sorted (fun a b : string * Z => (snd b <= snd a)%Z) l.
Proof.
  split; [vm_compute; reflexivity|].
  apply popup_ranking_sorted. vm_compute. reflexivity.
Defined.

(** When [getWinningCandidate] names a winner, the popup's winner line is
    the label of the first ranking row, and no other row has more votes. *)
Theorem popup_winner_first_row precincts getVoterCounts f vm pr w :
  result (getPrecinctResults precincts (ElectDist f)) = Returned (Some pr) ->
  getWinningCandidate (Some pr) = Some w ->
  exists p rs row rows,
    result (onEachPrecinct precincts getVoterCounts f vm) = Returned p /\
    popup_results p = Some rs /\
    rs_ranking rs = row :: rows /\
    rs_winner rs = row_label row /\
    Forall (fun r => (row_votes r <= row_votes row)%Z) rows.
Proof.
  intros H Hw. popup_found H.
  rewrite Hw. revert Hw. unfold getWinningCandidate.
  destruct (sort_desc (candidate_entries pr)) as [|[k v] s] eqn:Hs; [discriminate|].
  destruct (String.eqb k "") eqn:He; [discriminate|].
  intros Hw; injection Hw as <-.
  do 4 eexists. split; [reflexivity|]. split; [reflexivity|].
  split; [reflexivity|]. split; [reflexivity|].
  rewrite ranking_row_votes. apply Forall_map.
  eapply Forall_impl; [|exact (sort_desc_rest_le _ _ _ _ Hs)].
  intros e Hle. rewrite ranking_row_votes. exact Hle.
Qed.

Lemma popup_winner_first_row_witness :
  result (getPrecinctResults Inputs.snapshot (ElectDist (Inputs.feature 74001))) =
    Returned (Some Inputs.pr_three) /\
  getWinningCandidate (Some Inputs.pr_three) = Some "mamdani-z" /\
  exists p rs row rows,
    result (onEachPrecinct Inputs.snapshot Inputs.reg_of (Inputs.feature 74001)
              ElectionResults) = Returned p /\
    popup_results p = Some rs /\
    rs_ranking rs = row :: rows /\
    rs_winner rs = row_label row /\
    Forall (fun r => (row_votes r <= row_votes row)%Z) rows.
Proof.
  split; [vm_compute; reflexivity|]. split; [vm_compute; reflexivity|].
  apply (popup_winner_first_row _ _ _ _ Inputs.pr_three "mamdani-z");
    vm_compute; reflexivity.
Defined.

(** When [getWinningCandidate] returns [null], the popup shows ["No data"]
    as winner; the ranking is then empty or its first row has the empty
    key as label. *)
Theorem popup_no_winner precincts getVoterCounts f vm pr :
  result (getPrecinctResults precincts (ElectDist f)) = Returned (Some pr) ->
  getWinningCandidate (Some pr) = None ->
  exists p rs,
    result (onEachPrecinct precincts getVoterCounts f vm) = Returned p /\
    popup_results p = Some rs /\
    rs_winner rs = JStr "No data" /\
    (rs_ranking rs = [] \/
     exists row rows, rs_ranking rs = row :: rows /\ row_label row = JStr "").
Proof.
  intros H Hw. popup_found H.
  rewrite Hw.
  do 2 eexists. split; [reflexivity|]. split; [reflexivity|]. split; [reflexivity|].
  cbn [rs_ranking]. unfold getWinningCandidate in Hw.
  destruct (sort_desc (candidate_entries pr)) as [|[k v] s] eqn:Hs; [left; reflexivity|].
  destruct (String.eqb k "") eqn:He; [|discriminate].
  apply String.eqb_eq in He. subst k. right.
  do 2 eexists. split; [reflexivity|]. reflexivity.
Qed.

Lemma popup_no_winner_witness :
  result (getPrecinctResults Inputs.snapshot (ElectDist (Inputs.feature 74002))) =
    Returned (Some Inputs.pr_empty_key) /\
  getWinningCandidate (Some Inputs.pr_empty_key) = None /\
  exists p rs,
    result (onEachPrecinct Inputs.snapshot Inputs.reg_of (Inputs.feature 74002)
              ElectionResults) = Returned p /\
    popup_results p = Some rs /\
    rs_winner rs = JStr "No data" /\
    (rs_ranking rs = [] \/
     exists row rows, rs_ranking rs = row :: rows /\ row_label row = JStr "").
Proof.
  split; [vm_compute; reflexivity|]. split; [vm_compute; reflexivity|].
  apply (popup_no_winner _ _ _ _ Inputs.pr_empty_key); vm_compute; reflexivity.
Defined.

Lemma sum_Z_perm (l l' : list Z) :
  Permutation l l' -> fold_right Z.add 0%Z l = fold_right Z.add 0%Z l'.
Proof. induction 1; simpl; lia. Qed.

Lemma sum_percentages (l : list (string * Z)) t :
  fold_right Qplus 0 (map (fun e => qdiv_z (snd e) t * 100) l) ==
  qdiv_z (fold_right Z.add 0%Z (map snd l)) t * 100.
Proof.
  induction l as [|e l IH]; simpl.
  - unfold qdiv_z. change (inject_Z 0) with 0. unfold Qdiv. ring.
  - rewrite IH. unfold qdiv_z, Qdiv. rewrite inject_Z_plus. ring.
Qed.

(** The ranking percentages: all ["0.0"] when no votes were cast;
    otherwise each row shows its votes over [totalVotes] times 100, and the
    rows add up to the candidate votes over [totalVotes] times 100. *)
Theorem popup_row_percentages precincts getVoterCounts f vm pr :
  result (getPrecinctResults precincts (ElectDist f)) = Returned (Some pr) ->
  exists p rs,
    result (onEachPrecinct precincts getVoterCounts f vm) = Returned p /\
    popup_results p = Some rs /\
    ((votes pr <= 0)%Z ->
     Forall (fun r => row_percentage r = Literal "0.0") (rs_ranking rs)) /\
    ((votes pr > 0)%Z ->
     Forall (fun r => row_percentage r = Fixed1 (qdiv_z (row_votes r) (votes pr) * 100))
       (rs_ranking rs) /\
     fold_right Qplus 0
       (map (fun r => qdiv_z (row_votes r) (votes pr) * 100) (rs_ranking rs)) ==
     qdiv_z (fold_right Z.add 0%Z (map snd (candidate_entries pr))) (votes pr) * 100).
Proof.
  intros H. popup_found H.
  do 2 eexists. split; [reflexivity|]. split; [reflexivity|]. cbn [rs_ranking].
  split; [|split].
  - intros Hv. apply Forall_map. apply Forall_forall. intros [k v] _. simpl.
    destruct (votes pr >? 0)%Z eqn:E; [|reflexivity]. apply Z.gtb_lt in E. lia.
  - apply Forall_map. apply Forall_forall. intros [k v] _. simpl.
    destruct (votes pr >? 0)%Z eqn:E; [reflexivity|]. rewrite Z.gtb_ltb, Z.ltb_ge in E. lia.
  - rewrite map_map.
    rewrite (map_ext _ (fun e => qdiv_z (snd e) (votes pr) * 100))
      by (intros e; rewrite ranking_row_votes; reflexivity).
    rewrite sum_percentages.
    rewrite (sum_Z_perm _ _ (Permutation_map snd (sort_desc_perm _))).
    reflexivity.
Qed.

Lemma popup_row_percentages_witness :
  result (getPrecinctResults Inputs.snapshot (ElectDist (Inputs.feature 74001))) =
    Returned (Some Inputs.pr_three) /\
  exists p rs,
    result (onEachPrecinct Inputs.snapshot Inputs.reg_of (Inputs.feature 74001)
              ElectionResults) = Returned p /\
    popup_results p = Some rs /\
    ((votes Inputs.pr_three <= 0)%Z ->
     Forall (fun r => row_percentage r = Literal "0.0") (rs_ranking rs)) /\
    ((votes Inputs.pr_three > 0)%Z ->
     Forall (fun r => row_percentage r =
                      Fixed1 (qdiv_z (row_votes r) (votes Inputs.pr_three) * 100))
       (rs_ranking rs) /\
     fold_right Qplus 0
       (map (fun r => qdiv_z (row_votes r) (votes Inputs.pr_three) * 100) (rs_ranking rs)) ==
     qdiv_z (fold_right Z.add 0%Z (map snd (candidate_entries Inputs.pr_three)))
       (votes Inputs.pr_three) * 100).
Proof.
  split; [vm_compute; reflexivity|].
  apply popup_row_percentages. vm_compute. reflexivity.
Defined.


Lemma js_percent_pos a b : (b > 0)%Z -> js_percent a b = JFinite (qdiv_z a b * 100).
Proof.
  intros Hb. unfold js_percent. destruct (b =? 0)%Z eqn:E; [|reflexivity].
  apply Z.eqb_eq in E. lia.
Qed.



(** The turnout line of the registration section divides by the
    registration total with no guard: with a total of 0 and votes cast it
    shows [Infinity], while the results section leaves its turnout line
    out. *)
Theorem popup_registration_turnout_unguarded precincts getVoterCounts f vm pr vd :
  result (getPrecinctResults precincts (ElectDist f)) = Returned (Some pr) ->
  getVoterCounts (ElectDist f) = Some vd ->
  total vd = 0%Z -> (votes pr > 0)%Z ->
  exists p rs reg,
    result (onEachPrecinct precincts getVoterCounts f vm) = Returned p /\
    popup_results p = Some rs /\
    popup_registration p = Some reg /\
    rs_turnoutInfo rs = None /\
    reg_turnoutInfo reg = Some JInfinity.
Proof.
  intros H Hvd Ht Hv. popup_found H. rewrite Hvd.
  do 3 eexists. split; [reflexivity|]. split; [reflexivity|]. split; [reflexivity|].
  cbn [rs_turnoutInfo reg_turnoutInfo]. rewrite Ht.
  destruct (votes pr >? 0)%Z eqn:E; [|rewrite Z.gtb_ltb, Z.ltb_ge in E; lia].
  split; [reflexivity|]. unfold js_percent. rewrite E. reflexivity.
Qed.

Lemma popup_registration_turnout_unguarded_witness :
  exists p rs reg,
    result (onEachPrecinct Inputs.snapshot
              (fun _ => Some (Inputs.registration 74001 0 0 0))
              (Inputs.feature 74001) ElectionResults) = Returned p /\
    popup_results p = Some rs /\
    popup_registration p = Some reg /\
    rs_turnoutInfo rs = None /\
    reg_turnoutInfo reg = Some JInfinity.
Proof.
  apply (popup_registration_turnout_unguarded _ _ _ _ Inputs.pr_three
           (Inputs.registration 74001 0 0 0));
    vm_compute; reflexivity.
Defined.

(** The Zohran-support line of the popup is shown exactly in the Zohran view
    with a positive registration total; it then carries the percentage
    the map styles the precinct with. *)
Theorem popup_zohran_line precincts getVoterCounts f vm pr :
  result (getPrecinctResults precincts (ElectDist f)) = Returned (Some pr) ->
  exists p rs,
    result (onEachPrecinct precincts getVoterCounts f vm) = Returned p /\
    popup_results p = Some rs /\
    (rs_zohranSupportInfo rs <> None <->
     vm = ZohranSupport /\
     exists vd, getVoterCounts (ElectDist f) = Some vd /\ (total vd > 0)%Z) /\
    (forall x n, rs_zohranSupportInfo rs = Some (x, n) ->
     exists vd s,
       getVoterCounts (ElectDist f) = Some vd /\
       n = zohranVotes pr /\
       x = JFinite (zohranSupportPercentage pr vd) /\
       result (stylePrecinctByZohranSupport precincts getVoterCounts f) = Returned s /\
       fillColor s = JStr (zohran_color (zohranSupportPercentage pr vd))).
Proof.
  intros H. pose proof H as Hs. popup_found H.
  do 2 eexists. split; [reflexivity|]. split; [reflexivity|].
  cbn [rs_zohranSupportInfo].
  destruct (getVoterCounts (ElectDist f)) as [vd|] eqn:Hvd.
  - destruct (total vd >? 0)%Z eqn:E.
    + apply Z.gtb_lt in E. split.
      * split.
        -- intros Hn. split; [destruct vm; congruence|]. exists vd; split; [reflexivity|lia].
        -- intros [-> _]. discriminate.
      * intros x n Hx. destruct vm; try discriminate. injection Hx as <- <-.
        eexists vd, _. split; [reflexivity|]. split; [reflexivity|].
        split; [apply js_percent_pos; lia|].
        split.
        -- apply getPrecinctResults_found in Hs.
           unfold stylePrecinctByZohranSupport. rewrite Hs. cbn [bind ret result snd app].
           rewrite Hvd. destruct (total vd =? 0)%Z eqn:E0; [apply Z.eqb_eq in E0; lia|].
           reflexivity.
        -- reflexivity.
    + rewrite Z.gtb_ltb, Z.ltb_ge in E. split.
      * split.
        -- intros Hn. exfalso. apply Hn. destruct vm; reflexivity.
        -- intros [_ (vd' & Hvd' & Ht)]. injection Hvd' as <-. lia.
      * intros x n Hx. exfalso. destruct vm; discriminate.
  - split.
    + split.
      * intros Hn. exfalso. apply Hn. destruct vm; reflexivity.
      * intros [_ (vd' & Hvd' & _)]. discriminate.
    + intros x n Hx. exfalso. destruct vm; discriminate.
Qed.

Lemma popup_zohran_line_witness :
  result (getPrecinctResults Inputs.snapshot (ElectDist (Inputs.feature 74001))) =
    Returned (Some Inputs.pr_three) /\
  exists p rs,
    result (onEachPrecinct Inputs.snapshot Inputs.reg_of (Inputs.feature 74001)
              ZohranSupport) = Returned p /\
    popup_results p = Some rs /\
    (rs_zohranSupportInfo rs <> None <->
     ZohranSupport = ZohranSupport /\
     exists vd, Inputs.reg_of (ElectDist (Inputs.feature 74001)) = Some vd /\
                (total vd > 0)%Z) /\
    (forall x n, rs_zohranSupportInfo rs = Some (x, n) ->
     exists vd s,
       Inputs.reg_of (ElectDist (Inputs.feature 74001)) = Some vd /\
       n = zohranVotes Inputs.pr_three /\
       x = JFinite (zohranSupportPercentage Inputs.pr_three vd) /\
       result (stylePrecinctByZohranSupport Inputs.snapshot Inputs.reg_of
                 (Inputs.feature 74001)) = Returned s /\
       fillColor s = JStr (zohran_color (zohranSupportPercentage Inputs.pr_three vd))).
Proof.
  split; [vm_compute; reflexivity|].
  apply popup_zohran_line. vm_compute. reflexivity.
Defined.

(** The Democratic-turnout line of the popup is shown exactly when the
    registration has Democrats; it then carries the percentage the turnout
    view styles the precinct with. *)
Theorem popup_dem_turnout_line precincts getVoterCounts f vm pr :
  result (getPrecinctResults precincts (ElectDist f)) = Returned (Some pr) ->
  exists p rs,
    result (onEachPrecinct precincts getVoterCounts f vm) = Returned p /\
    popup_results p = Some rs /\
    (rs_demTurnoutInfo rs <> None <->
     exists vd, getVoterCounts (ElectDist f) = Some vd /\ (democrats vd > 0)%Z) /\
    (forall x, rs_demTurnoutInfo rs = Some x ->
     exists vd s,
       getVoterCounts (ElectDist f) = Some vd /\
       x = JFinite (qdiv_z (votes pr) (democrats vd) * 100) /\
       result (stylePrecinctByTurnout precincts getVoterCounts f) = Returned s /\
       fillColor s = JStr (turnout_color (qdiv_z (votes pr) (democrats vd) * 100))).
Proof.
  intros H. pose proof H as Hs. popup_found H.
  do 2 eexists. split; [reflexivity|]. split; [reflexivity|].
  cbn [rs_demTurnoutInfo].
  destruct (getVoterCounts (ElectDist f)) as [vd|] eqn:Hvd.
  - destruct (democrats vd >? 0)%Z eqn:E.
    + apply Z.gtb_lt in E. split.
      * split; [intros _; exists vd; split; [reflexivity|lia] | discriminate].
      * intros x Hx. injection Hx as <-.
        eexists vd, _. split; [reflexivity|]. split; [apply js_percent_pos; lia|].
        split.
        -- apply getPrecinctResults_found in Hs.
           unfold stylePrecinctByTurnout. rewrite Hs. cbn [bind ret result snd app].
           rewrite Hvd. destruct (democrats vd =? 0)%Z eqn:E0; [apply Z.eqb_eq in E0; lia|].
           reflexivity.
        -- reflexivity.
    + rewrite Z.gtb_ltb, Z.ltb_ge in E. split.
      * split; [intros Hn; exfalso; apply Hn; reflexivity|].
        intros (vd' & Hvd' & Hd). injection Hvd' as <-. lia.
      * intros x Hx. discriminate.
  - split.
    + split; [intros Hn; exfalso; apply Hn; reflexivity|].
      intros (vd' & Hvd' & _). discriminate.
    + intros x Hx. discriminate.
Qed.

Lemma popup_dem_turnout_line_witness :
  result (getPrecinctResults Inputs.snapshot (ElectDist (Inputs.feature 74001))) =
    Returned (Some Inputs.pr_three) /\
  exists p rs,
    result (onEachPrecinct Inputs.snapshot Inputs.reg_of (Inputs.feature 74001)
              Turnout) = Returned p /\
    popup_results p = Some rs /\
    (rs_demTurnoutInfo rs <> None <->
     exists vd, Inputs.reg_of (ElectDist (Inputs.feature 74001)) = Some vd /\
                (democrats vd > 0)%Z) /\
    (forall x, rs_demTurnoutInfo rs = Some x ->
     exists vd s,
       Inputs.reg_of (ElectDist (Inputs.feature 74001)) = Some vd /\
       x = JFinite (qdiv_z (votes Inputs.pr_three) (democrats vd) * 100) /\
       result (stylePrecinctByTurnout Inputs.snapshot Inputs.reg_of
                 (Inputs.feature 74001)) = Returned s /\
       fillColor s = JStr (turnout_color (qdiv_z (votes Inputs.pr_three) (democrats vd) * 100))).
Proof.
  split; [vm_compute; reflexivity|].
  apply popup_dem_turnout_line. vm_compute. reflexivity.
Defined.




Lemma genZ_color_not_grey g : genZ_color g <> "#cccccc".
Proof.
  unfold genZ_color, q_ge.
  repeat match goal with |- context [Qle_bool ?a ?b] => destruct (Qle_bool a b) end;
    discriminate.
Qed.

Lemma styleCensusTract_fill_eq props isPrimaryView :
  fillColor (styleCensusTract props isPrimaryView) =
  JStr (match calculateGenZPercentage (ageGroups props) (totalPopulation props) with
        | None => "#cccccc"
        | Some g => genZ_color g
        end).
Proof.
  unfold styleCensusTract.
  destruct (totalPopulation props) as [tp|] eqn:Htp.
  - destruct (tp =? 0)%Z eqn:E.
    + unfold calculateGenZPercentage. rewrite E.
      destruct (ageGroups props); reflexivity.
    + destruct (calculateGenZPercentage (ageGroups props) (Some tp)); reflexivity.
  - unfold calculateGenZPercentage. destruct (ageGroups props); reflexivity.
Qed.

(** A census tract is filled by its Gen-Z share through the ladder of
    [styleCensusTract], or grey [#cccccc] when the share is [null]; no
    share is ever shown grey. *)
Theorem styleCensusTract_fill props isPrimaryView :
  fillColor (styleCensusTract props isPrimaryView) =
  JStr (match calculateGenZPercentage (ageGroups props) (totalPopulation props) with
        | None => "#cccccc"
        | Some g => genZ_color g
        end) /\
  (forall g, genZ_color g <> "#cccccc").
Proof.
  split; [apply styleCensusTract_fill_eq | apply genZ_color_not_grey].
Qed.

(** The frame of a census-tract style: opacity 1, weight and fill opacity
    by primary view; grey tracts get a [#666666]/[#888888] border without
    dashes, colored tracts [#333333]/[#888888], dashed only when not
    primary. *)
Theorem styleCensusTract_frame props isPrimaryView :
  let s := styleCensusTract props isPrimaryView in
  opacity s = 1 /\
  weight s = (if isPrimaryView then 1 else 1#2) /\
  fillOpacity s = (if isPrimaryView then 7#10 else 3#10) /\
  (fillColor s = JStr "#cccccc" ->
   color s = (if isPrimaryView then "#666666" else "#888888") /\ dashArray s = None) /\
  (fillColor s <> JStr "#cccccc" ->
   color s = (if isPrimaryView then "#333333" else "#888888") /\
   dashArray s = (if isPrimaryView then None else Some "2")).
Proof.
  cbv zeta. unfold styleCensusTract.
  destruct (match totalPopulation props with Some tp => (tp =? 0)%Z | None => true end);
    [|destruct (calculateGenZPercentage (ageGroups props) (totalPopulation props)) as [g|]];
    cbn [fillColor color dashArray weight opacity fillOpacity];
    repeat split; try reflexivity;
    match goal with
    | Hc : JStr _ <> JStr _ |- _ => exfalso; apply Hc; reflexivity
    | Hc : JStr _ = JStr _ |- _ =>
        injection Hc as Hc; exfalso; exact (genZ_color_not_grey _ Hc)
    end.
Qed.

(** The census-tract layer is rendered only in the age-demographics view,
    and always with the primary style. *)
Theorem census_layer_primary precincts getVoterCounts vm style onEachFeature :
  rendered_layer precincts getVoterCounts vm = CensusTracts style onEachFeature ->
  vm = AgeDemographics /\
  forall props,
    style props = styleCensusTract props true /\
    weight (style props) = 1 /\ fillOpacity (style props) = 7#10 /\
    color (style props) <> "#888888" /\ dashArray (style props) = None.
Proof.
  destruct vm; cbn [rendered_layer]; try discriminate.
  intros H. injection H as <- <-. split; [reflexivity|].
  intros props. unfold censusTractStyleWrapper. split; [reflexivity|].
  unfold styleCensusTract.
  destruct (match totalPopulation props with Some tp => (tp =? 0)%Z | None => true end);
    [|destruct (calculateGenZPercentage _ _)];
    cbn; repeat split; discriminate.
Qed.

Lemma census_layer_primary_witness :
  rendered_layer Inputs.snapshot Inputs.reg_of AgeDemographics =
    CensusTracts (censusTractStyleWrapper AgeDemographics) onEachCensusTract /\
  AgeDemographics = AgeDemographics /\
  forall props,
    censusTractStyleWrapper AgeDemographics props = styleCensusTract props true /\
    weight (censusTractStyleWrapper AgeDemographics props) = 1 /\
    fillOpacity (censusTractStyleWrapper AgeDemographics props) = 7#10 /\
    color (censusTractStyleWrapper AgeDemographics props) <> "#888888" /\
    dashArray (censusTractStyleWrapper AgeDemographics props) = None.
Proof.
  split; [reflexivity|].
  apply (census_layer_primary Inputs.snapshot Inputs.reg_of _ _ onEachCensusTract).
  reflexivity.
Defined.

(** The Gen-Z share of a tract's popup is the one its fill is drawn from. *)
Theorem tract_popup_genZ_style props isPrimaryView :
  fillColor (styleCensusTract props isPrimaryView) =
  JStr (match tract_population (onEachCensusTract props) with
        | Some ps =>
            match pop_genZ ps with Some g => genZ_color g | None => "#cccccc" end
        | None => "#cccccc"
        end).
Proof.
  rewrite styleCensusTract_fill_eq. unfold onEachCensusTract. cbn [tract_population].
  destruct (totalPopulation props) as [tp|]; cbn [pop_genZ]; [reflexivity|].
  unfold calculateGenZPercentage. destruct (ageGroups props); reflexivity.
Qed.



(* ------------------------------------------------------------------ *)
(** ** County aggregation of the integration example *)

(** [getPrecinctsByCountyWithVoterData] keeps the features, in order, whose
    registration record names the county, each with that record. *)
Theorem county_filter getVoterCounts features c :
  map pwv_feature (getPrecinctsByCountyWithVoterData getVoterCounts features c) =
    filter (fun f => match getVoterCounts (ElectDist f) with
                     | Some vd => String.eqb (county vd) c
                     | None => false
                     end) features /\
  Forall (fun p => voterCounts p = getVoterCounts (ElectDist (pwv_feature p)) /\
                   exists vd, voterCounts p = Some vd /\ county vd = c)
    (getPrecinctsByCountyWithVoterData getVoterCounts features c).
Proof.
  unfold getPrecinctsByCountyWithVoterData, addVoterDataToPrecincts.
  induction features as [|f fs [IH1 IH2]]; [split; [reflexivity|constructor]|].
  simpl. destruct (getVoterCounts (ElectDist f)) as [vd|] eqn:Hv; [|split; assumption].
  destruct (String.eqb (county vd) c) eqn:Ec; [|split; assumption].
  split; [simpl; f_equal; exact IH1|].
  constructor; [|exact IH2]. simpl.
  split; [rewrite Hv; reflexivity|]. exists vd. split; [reflexivity|]. apply String.eqb_eq. exact Ec.
Qed.

Lemma county_totals_acc getVoterCounts features c acc :
  fold_left add_voter_data (getPrecinctsByCountyWithVoterData getVoterCounts features c) acc =
  {| t_democrats := t_democrats acc +
       sum_field democrats (county_records getVoterCounts features c);
     t_republicans := t_republicans acc +
       sum_field republicans (county_records getVoterCounts features c);
     t_conservatives := t_conservatives acc +
       sum_field conservatives (county_records getVoterCounts features c);
     t_working_families := t_working_families acc +
       sum_field working_families (county_records getVoterCounts features c);
     t_other := t_other acc + sum_field other (county_records getVoterCounts features c);
     t_blank := t_blank acc + sum_field blank (county_records getVoterCounts features c);
     t_total := t_total acc + sum_field total (county_records getVoterCounts features c) |}.
Proof.
  unfold getPrecinctsByCountyWithVoterData, addVoterDataToPrecincts.
  revert acc. induction features as [|f fs IH]; intros acc.
  - destruct acc; unfold sum_field, county_records; simpl; f_equal; lia.
  - cbn [map filter voterCounts county_records flat_map].
    destruct (getVoterCounts (ElectDist f)) as [vd|] eqn:Hv.
    + destruct (String.eqb (county vd) c) eqn:Ec.
      * cbn [fold_left app]. rewrite IH. unfold add_voter_data. cbn.
        unfold sum_field, county_records; cbn [fold_right]. f_equal; lia.
      * cbn [app]. rewrite IH. reflexivity.
    + cbn [app]. rewrite IH. reflexivity.
Qed.

(** [getCountyVoterTotals] sums each party field over the registration
    records of the county's features. *)
Theorem getCountyVoterTotals_sums getVoterCounts features c :
  let recs := county_records getVoterCounts features c in
  getCountyVoterTotals getVoterCounts features c =
  {| t_democrats := sum_field democrats recs;
     t_republicans := sum_field republicans recs;
     t_conservatives := sum_field conservatives recs;
     t_working_families := sum_field working_families recs;
     t_other := sum_field other recs;
     t_blank := sum_field blank recs;
     t_total := sum_field total recs |}.
Proof.
  cbv zeta. unfold getCountyVoterTotals. rewrite county_totals_acc. reflexivity.
Qed.

Lemma sum_field_app field l1 l2 :
  sum_field field (l1 ++ l2) = (sum_field field l1 + sum_field field l2)%Z.
Proof.
  unfold sum_field. induction l1 as [|x l1 IH]; simpl; [reflexivity|]. rewrite IH. lia.
Qed.

(** County totals add up over concatenated feature lists. *)
Theorem county_totals_append getVoterCounts l1 l2 c field :
  In field [t_democrats; t_republicans; t_conservatives; t_working_families;
            t_other; t_blank; t_total] ->
  field (getCountyVoterTotals getVoterCounts (l1 ++ l2) c) =
  (field (getCountyVoterTotals getVoterCounts l1 c) +
   field (getCountyVoterTotals getVoterCounts l2 c))%Z.
Proof.
  intros Hin. unfold getCountyVoterTotals. rewrite !county_totals_acc.
  unfold county_records. rewrite flat_map_app. fold (county_records getVoterCounts l1 c).
  fold (county_records getVoterCounts l2 c).
  simpl in Hin. repeat destruct Hin as [<-|Hin]; try contradiction;
    cbn [t_democrats t_republicans t_conservatives t_working_families t_other t_blank t_total];
    rewrite sum_field_app; reflexivity.
Qed.

Lemma county_totals_append_witness :
  In t_total [t_democrats; t_republicans; t_conservatives; t_working_families;
              t_other; t_blank; t_total] /\
  t_total (getCountyVoterTotals Inputs.reg_of
             [Inputs.feature 74001; Inputs.feature 74006] "New York") =
  (t_total (getCountyVoterTotals Inputs.reg_of [Inputs.feature 74001] "New York") +
   t_total (getCountyVoterTotals Inputs.reg_of [Inputs.feature 74006] "New York"))%Z.
Proof.
  split; [simpl; tauto|].
  apply (county_totals_append Inputs.reg_of [Inputs.feature 74001] [Inputs.feature 74006]).
  simpl. tauto.
Defined.

(** A county that no feature's registration names has all totals 0. *)
Theorem county_totals_absent getVoterCounts features c :
  (forall f vd, In f features -> getVoterCounts (ElectDist f) = Some vd -> county vd <> c) ->
  getCountyVoterTotals getVoterCounts features c =
  {| t_democrats := 0; t_republicans := 0; t_conservatives := 0;
     t_working_families := 0; t_other := 0; t_blank := 0; t_total := 0 |}.
Proof.
  intros H. unfold getCountyVoterTotals. rewrite county_totals_acc.
  assert (Hr : county_records getVoterCounts features c = []).
  { unfold county_records. induction features as [|f fs IH]; [reflexivity|].
    simpl. destruct (getVoterCounts (ElectDist f)) as [vd|] eqn:Hv.
    - destruct (String.eqb (county vd) c) eqn:Ec.
      + apply String.eqb_eq in Ec. exfalso. exact (H f vd (or_introl eq_refl) Hv Ec).
      + apply IH. intros f' vd' Hf'. apply H. right. exact Hf'.
    - apply IH. intros f' vd' Hf'. apply H. right. exact Hf'. }
  rewrite Hr. reflexivity.
Qed.

Lemma county_totals_absent_witness :
  getCountyVoterTotals Inputs.reg_of [Inputs.feature 74001; Inputs.feature 74006] "Kings" =
  {| t_democrats := 0; t_republicans := 0; t_conservatives := 0;
     t_working_families := 0; t_other := 0; t_blank := 0; t_total := 0 |}.
Proof.
  apply county_totals_absent.
  intros f vd [<-|[<-|[]]] H; vm_compute in H; injection H as <-; discriminate.
Defined.

(* ------------------------------------------------------------------ *)
(** ** Match statistics *)

Lemma existsb_find {A} (f : A -> bool) l :
  existsb f l = match find f l with Some _ => true | None => false end.
Proof.
  induction l as [|x l IH]; simpl; [reflexivity|]. destruct (f x); [reflexivity|exact IH].
Qed.

(** The matched count is the number of features [getPrecinctResults]
    finds, at most the number of features, and the match percentage lies
    in [0, 100]. *)
Theorem match_statistics precincts features :
  matchedCount precincts features =
    length (filter (fun f => match result (getPrecinctResults precincts (ElectDist f)) with
                             | Returned (Some _) => true
                             | _ => false
                             end) features) /\
  (matchedCount precincts features <= length features)%nat /\
  (forall q, matchPercentage precincts features = Fixed1 q -> 0 <= q <= 100).
Proof.
  assert (Heq : matchedCount precincts features =
    length (filter (fun f => match result (getPrecinctResults precincts (ElectDist f)) with
                             | Returned (Some _) => true
                             | _ => false
                             end) features)).
  { unfold matchedCount. f_equal. apply filter_ext. intros f.
    rewrite existsb_find. unfold getPrecinctResults.
    destruct (find _ precincts); reflexivity. }
  assert (Hle : (matchedCount precincts features <= length features)%nat).
  { unfold matchedCount. apply filter_length_le. }
  split; [exact Heq|]. split; [exact Hle|].
  intros q. unfold matchPercentage.
  destruct (0 <? length features)%nat eqn:E; [|discriminate].
  apply Nat.ltb_lt in E. intros H. injection H as <-.
  set (m := matchedCount precincts features) in *.
  set (n := length features) in *.
  assert (Hn : 0 < inject_Z (Z.of_nat n)) by (unfold Qlt; simpl; lia).
  assert (Hm : inject_Z (Z.of_nat m) <= inject_Z (Z.of_nat n))
    by (rewrite <- Zle_Qle; lia).
  assert (H0 : 0 <= inject_Z (Z.of_nat m) / inject_Z (Z.of_nat n)).
  { apply Qle_shift_div_l; [exact Hn|]. unfold Qle; simpl; lia. }
  assert (H1 : inject_Z (Z.of_nat m) / inject_Z (Z.of_nat n) <= 1).
  { apply Qle_shift_div_r; [exact Hn|]. rewrite Qmult_1_l. exact Hm. }
  set (x := inject_Z (Z.of_nat m) / inject_Z (Z.of_nat n)) in *.
  split; lra.
Qed.

(* ------------------------------------------------------------------ *)
(** ** Hex colors and shading *)

Lemma channel_hex_table :
  forallb (fun v =>
    match channel_hex (Some v) with
    | String c1 (String c2 EmptyString) =>
        match parseInt16 (String c1 (String c2 EmptyString)) with
        | Some w => (w =? v)%Z
        | None => false
        end
    | _ => false
    end) (map Z.of_nat (seq 0 256)) = true.
Proof. vm_compute. reflexivity. Qed.

Lemma channel_hex_two v :
  (0 <= v <= 255)%Z ->
  exists c1 c2, channel_hex (Some v) = String c1 (String c2 EmptyString) /\
                parseInt16 (String c1 (String c2 EmptyString)) = Some v.
Proof.
  intros Hv. pose proof channel_hex_table as H.
  rewrite forallb_forall in H.
  assert (Hin : In v (map Z.of_nat (seq 0 256))).
  { apply in_map_iff. exists (Z.to_nat v). split; [lia|]. apply in_seq. lia. }
  specialize (H v Hin).
  destruct (channel_hex (Some v)) as [|c1 [|c2 [|c3 s]]]; try discriminate.
  exists c1, c2. split; [reflexivity|].
  destruct (parseInt16 _) as [w|]; [|discriminate]. apply Z.eqb_eq in H. subst. reflexivity.
Qed.

(** A channel in [0, 255] prints as two hex digits that parse back to it. *)
Theorem channel_hex_roundtrip v :
  (0 <= v <= 255)%Z ->
  String.length (channel_hex (Some v)) = 2%nat /\
  parseInt16 (channel_hex (Some v)) = Some v.
Proof.
  intros Hv. destruct (channel_hex_two v Hv) as (c1 & c2 & -> & Hp). split; [reflexivity|exact Hp].
Qed.

Lemma channel_hex_roundtrip_witness :
  String.length (channel_hex (Some 180%Z)) = 2%nat /\
  parseInt16 (channel_hex (Some 180%Z)) = Some 180%Z.
Proof. apply channel_hex_roundtrip. lia. Defined.

Lemma hex_color_chars r g b :
  (0 <= r <= 255)%Z -> (0 <= g <= 255)%Z -> (0 <= b <= 255)%Z ->
  exists r1 r2 g1 g2 b1 b2,
    hex_color r g b =
      String "#" (String r1 (String r2 (String g1 (String g2 (String b1 (String b2 EmptyString)))))) /\
    parseInt16 (String r1 (String r2 EmptyString)) = Some r /\
    parseInt16 (String g1 (String g2 EmptyString)) = Some g /\
    parseInt16 (String b1 (String b2 EmptyString)) = Some b.
Proof.
  intros Hr Hg Hb.
  destruct (channel_hex_two r Hr) as (r1 & r2 & Er & Pr).
  destruct (channel_hex_two g Hg) as (g1 & g2 & Eg & Pg).
  destruct (channel_hex_two b Hb) as (b1 & b2 & Eb & Pb).
  exists r1, r2, g1, g2, b1, b2. unfold hex_color. rewrite Er, Eg, Eb. auto.
Qed.

Lemma darkenColor_hex r g b amount :
  (0 <= r <= 255)%Z -> (0 <= g <= 255)%Z -> (0 <= b <= 255)%Z ->
  darkenColor (JStr (hex_color r g b)) amount =
  ret (hex_color (Z.max 0 (Qfloor (inject_Z r * (1 - amount))))
                 (Z.max 0 (Qfloor (inject_Z g * (1 - amount))))
                 (Z.max 0 (Qfloor (inject_Z b * (1 - amount))))).
Proof.
  intros Hr Hg Hb.
  destruct (hex_color_chars r g b Hr Hg Hb) as (r1 & r2 & g1 & g2 & b1 & b2 & E & Pr & Pg & Pb).
  unfold darkenColor. rewrite E. cbn [remove_first_hash Ascii.eqb Bool.eqb].
  unfold substr. cbn [String.substring].
  rewrite Pr, Pg, Pb. reflexivity.
Qed.

Lemma lightenColor_hex r g b amount :
  (0 <= r <= 255)%Z -> (0 <= g <= 255)%Z -> (0 <= b <= 255)%Z ->
  lightenColor (JStr (hex_color r g b)) amount =
  ret (hex_color (Z.min 255 (Qfloor (inject_Z r + inject_Z (255 - r) * amount)))
                 (Z.min 255 (Qfloor (inject_Z g + inject_Z (255 - g) * amount)))
                 (Z.min 255 (Qfloor (inject_Z b + inject_Z (255 - b) * amount)))).
Proof.
  intros Hr Hg Hb.
  destruct (hex_color_chars r g b Hr Hg Hb) as (r1 & r2 & g1 & g2 & b1 & b2 & E & Pr & Pg & Pb).
  unfold lightenColor. rewrite E. cbn [remove_first_hash Ascii.eqb Bool.eqb].
  unfold substr. cbn [String.substring].
  rewrite Pr, Pg, Pb. reflexivity.
Qed.

Lemma dark_channel_bounds v amount :
  (0 <= v)%Z -> 0 <= amount ->
  (0 <= Z.max 0 (Qfloor (inject_Z v * (1 - amount))) <= v)%Z.
Proof.
  intros Hv Ha. split; [lia|].
  assert (H : (Qfloor (inject_Z v * (1 - amount)) <= v)%Z).
  { rewrite <- (Qfloor_Z v) at 2. apply Qfloor_resp_le.
    assert (0 <= inject_Z v) by (change 0 with (inject_Z 0); rewrite <- Zle_Qle; lia).
    assert (0 <= inject_Z v * amount) by (apply Qmult_le_0_compat; assumption).
    lra. }
  lia.
Qed.

Lemma light_channel_bounds v amount :
  (v <= 255)%Z -> 0 <= amount ->
  (v <= Z.min 255 (Qfloor (inject_Z v + inject_Z (255 - v) * amount)) <= 255)%Z.
Proof.
  intros Hv Ha. split; [|lia].
  assert (H : (v <= Qfloor (inject_Z v + inject_Z (255 - v) * amount))%Z).
  { rewrite <- (Qfloor_Z v) at 1. apply Qfloor_resp_le.
    assert (0 <= inject_Z (255 - v)) by (change 0 with (inject_Z 0); rewrite <- Zle_Qle; lia).
    assert (0 <= inject_Z (255 - v) * amount) by (apply Qmult_le_0_compat; assumption).
    lra. }
  lia.
Qed.

(** Darkening a 6-digit hex color by a non-negative amount gives a 6-digit
    hex color whose channels do not increase and stay non-negative. *)
Theorem darkenColor_valid r g b amount :
  (0 <= r <= 255)%Z -> (0 <= g <= 255)%Z -> (0 <= b <= 255)%Z -> 0 <= amount ->
  exists r' g' b',
    darkenColor (JStr (hex_color r g b)) amount = ret (hex_color r' g' b') /\
    (0 <= r' <= r)%Z /\ (0 <= g' <= g)%Z /\ (0 <= b' <= b)%Z.
Proof.
  intros Hr Hg Hb Ha. rewrite darkenColor_hex by assumption.
  do 3 eexists. split; [reflexivity|].
  split; [|split]; apply dark_channel_bounds; lia || assumption.
Qed.

Lemma darkenColor_valid_witness :
  exists r' g' b',
    darkenColor (JStr (hex_color 31 119 180)) (3#10) = ret (hex_color r' g' b') /\
    (0 <= r' <= 31)%Z /\ (0 <= g' <= 119)%Z /\ (0 <= b' <= 180)%Z.
Proof. apply darkenColor_valid; try lia. unfold Qle; simpl; lia. Defined.

(** Lightening a 6-digit hex color by a non-negative amount gives a
    6-digit hex color whose channels do not decrease and stay at most 255. *)
Theorem lightenColor_valid r g b amount :
  (0 <= r <= 255)%Z -> (0 <= g <= 255)%Z -> (0 <= b <= 255)%Z -> 0 <= amount ->
  exists r' g' b',
    lightenColor (JStr (hex_color r g b)) amount = ret (hex_color r' g' b') /\
    (r <= r' <= 255)%Z /\ (g <= g' <= 255)%Z /\ (b <= b' <= 255)%Z.
Proof.
  intros Hr Hg Hb Ha. rewrite lightenColor_hex by assumption.
  do 3 eexists. split; [reflexivity|].
  split; [|split]; apply light_channel_bounds; lia || assumption.
Qed.

Lemma lightenColor_valid_witness :
  exists r' g' b',
    lightenColor (JStr (hex_color 31 119 180)) (4#10) = ret (hex_color r' g' b') /\
    (31 <= r' <= 255)%Z /\ (119 <= g' <= 255)%Z /\ (180 <= b' <= 255)%Z.
Proof. apply lightenColor_valid; try lia. unfold Qle; simpl; lia. Defined.

(** Darkening or lightening by 0 leaves a 6-digit hex color unchanged. *)
Theorem shade_by_zero r g b :
  (0 <= r <= 255)%Z -> (0 <= g <= 255)%Z -> (0 <= b <= 255)%Z ->
  darkenColor (JStr (hex_color r g b)) 0 = ret (hex_color r g b) /\
  lightenColor (JStr (hex_color r g b)) 0 = ret (hex_color r g b).
Proof.
  intros Hr Hg Hb. rewrite darkenColor_hex, lightenColor_hex by assumption.
  assert (Hd : forall v, (0 <= v)%Z -> Z.max 0 (Qfloor (inject_Z v * (1 - 0))) = v).
  { intros v Hv. assert (E : inject_Z v * (1 - 0) == inject_Z v) by ring.
    rewrite E, Qfloor_Z. lia. }
  assert (Hl : forall v, (v <= 255)%Z ->
               Z.min 255 (Qfloor (inject_Z v + inject_Z (255 - v) * 0)) = v).
  { intros v Hv. assert (E : inject_Z v + inject_Z (255 - v) * 0 == inject_Z v) by ring.
    rewrite E, Qfloor_Z. lia. }
  rewrite !Hd, !Hl by lia. split; reflexivity.
Qed.

Lemma shade_by_zero_witness :
  darkenColor (JStr (hex_color 214 39 40)) 0 = ret (hex_color 214 39 40) /\
  lightenColor (JStr (hex_color 214 39 40)) 0 = ret (hex_color 214 39 40).
Proof. apply shade_by_zero; lia. Defined.

Lemma not_in_existsb w l : ~ In w l -> existsb (String.eqb w) l = false.
Proof.
  intros H. apply Bool.not_true_iff_false. intros E.
  apply existsb_exists in E as (x & Hx & E). apply String.eqb_eq in E. subst. contradiction.
Qed.

Ltac hex_triple r g b :=
  exists r, g, b; split; [lia|split; [lia|split; [lia|vm_compute; reflexivity]]].

Lemma base_color_hex w :
  ~ In w object_prototype_members ->
  exists r g b, (0 <= r <= 255)%Z /\ (0 <= g <= 255)%Z /\ (0 <= b <= 255)%Z /\
    lookup_or candidateBaseColors w "#cccccc" = JStr (hex_color r g b).
Proof.
  intros Hw. unfold lookup_or, lookup_literal. cbn [JsObject.get candidateBaseColors].
  repeat match goal with |- context [String.eqb w ?k] => destruct (String.eqb w k) end;
    try rewrite (not_in_existsb w _ Hw);
    first [ hex_triple 31%Z 119%Z 180%Z | hex_triple 255%Z 127%Z 14%Z | hex_triple 44%Z 160%Z 44%Z
          | hex_triple 214%Z 39%Z 40%Z | hex_triple 148%Z 103%Z 189%Z | hex_triple 140%Z 86%Z 75%Z
          | hex_triple 227%Z 119%Z 194%Z | hex_triple 127%Z 127%Z 127%Z | hex_triple 188%Z 189%Z 34%Z
          | hex_triple 204%Z 204%Z 204%Z ].
Qed.

(** When no candidate key names an [Object.prototype] member, the results
    view never throws and fills every precinct with a 6-digit hex color. *)
Theorem results_fill_valid precincts f :
  Forall (fun p => Forall (fun kv => ~ In (fst kv) object_prototype_members) (results p))
    precincts ->
  exists st r g b,
    result (stylePrecinctByResults precincts f) = Returned st /\
    fillColor st = JStr (hex_color r g b) /\
    (0 <= r <= 255)%Z /\ (0 <= g <= 255)%Z /\ (0 <= b <= 255)%Z.
Proof.
  intros Hall.
  assert (Hgrey : JStr "#cccccc" = JStr (hex_color 204 204 204)) by (vm_compute; reflexivity).
  unfold stylePrecinctByResults, getPrecinctResults.
  destruct (find _ precincts) as [pr|] eqn:Ef; cbn [bind ret log result snd app].
  - destruct (getWinningCandidate (Some pr)) as [w|] eqn:Hw.
    + assert (Hnp : ~ In w object_prototype_members).
      { destruct (getWinningCandidate_first_max pr w Hw) as (pre & v & post & Heq & _).
        assert (Hin : In (w, v) (candidate_entries pr)).
        { rewrite Heq. apply in_or_app. right. left. reflexivity. }
        unfold candidate_entries in Hin. apply filter_In in Hin as [Hin _].
        apply In_entries in Hin.
        apply find_some in Ef as [Hp _].
        rewrite Forall_forall in Hall. specialize (Hall pr Hp).
        rewrite Forall_forall in Hall. exact (Hall _ Hin). }
      destruct (base_color_hex w Hnp) as (r & g & b & Hr & Hg & Hb & Hbase).
      rewrite Hbase.
      repeat match goal with |- context [if num_ge ?x ?t then _ else _] =>
        destruct (num_ge x t) end;
      rewrite ?darkenColor_hex, ?lightenColor_hex by assumption;
      cbn [bind ret result snd app];
      eexists _, _, _, _; (split; [reflexivity|]); (split; [reflexivity|]);
      first [ exact (conj Hr (conj Hg Hb))
            | pose proof (dark_channel_bounds r (3#10)); pose proof (dark_channel_bounds g (3#10));
              pose proof (dark_channel_bounds b (3#10));
              pose proof (dark_channel_bounds r (2#10)); pose proof (dark_channel_bounds g (2#10));
              pose proof (dark_channel_bounds b (2#10));
              pose proof (light_channel_bounds r (2#10)); pose proof (light_channel_bounds g (2#10));
              pose proof (light_channel_bounds b (2#10));
              pose proof (light_channel_bounds r (4#10)); pose proof (light_channel_bounds g (4#10));
              pose proof (light_channel_bounds b (4#10));
              repeat match goal with H : _ -> _ -> _ |- _ =>
                specialize (H ltac:(lia) ltac:(unfold Qle; simpl; lia)) end;
              repeat split; lia ].
    + eexists _, 204%Z, 204%Z, 204%Z. split; [reflexivity|]. split; [exact Hgrey|]. lia.
  - eexists _, 204%Z, 204%Z, 204%Z. split; [reflexivity|]. split; [exact Hgrey|]. lia.
Qed.

Lemma results_fill_valid_witness :
  exists st r g b,
    result (stylePrecinctByResults [Inputs.pr_three; Inputs.pr_no_mamdani]
              (Inputs.feature 74001)) = Returned st /\
    fillColor st = JStr (hex_color r g b) /\
    (0 <= r <= 255)%Z /\ (0 <= g <= 255)%Z /\ (0 <= b <= 255)%Z.
Proof.
  apply results_fill_valid.
  repeat constructor; cbn [fst]; intros H;
    repeat destruct H as [H|H]; try discriminate H; contradiction.
Defined.
